(** * Report synthesis and structured-text rendering (ReportView.tsx)

    A shallow embedding of [createReport] (the report composer) and of the
    line-by-line renderer inside [ReportView], with the JavaScript built-ins
    they rely on ([String.prototype.split], [substring], [startsWith],
    [endsWith], [includes], [trim], plain objects used as dictionaries,
    [Object.keys] / [Object.entries]).

    Conventions.
    - A JavaScript string is a sequence of code units; here it is a Rocq
      [string], one [ascii] per code unit (code units 0..255).
    - [createReport] can raise a [TypeError]; it returns a [result].
    - The two calls to [toLocaleDateString] depend on the host (locale data,
      clock); they are parameters of the development. *)

From Stdlib Require Import String Ascii List Arith ZArith Lia Bool.
From Stdlib Require Import DecimalString Permutation.
Import ListNotations.

Open Scope list_scope.
Open Scope string_scope.

(** ** Results of fallible code *)

Inductive error : Type :=
| TypeError (msg : string).

Inductive result (A : Type) : Type :=
| Ok (a : A)
| Throw (e : error).

Arguments Ok {A} a.
Arguments Throw {A} e.

Definition bind {A B : Type} (r : result A) (k : A -> result B) : result B :=
  match r with
  | Ok a => k a
  | Throw e => Throw e
  end.

Notation "x <- r ;; k" := (bind r (fun x => k))
  (at level 61, r at next level, right associativity).

(** ** JavaScript string built-ins *)

Module JS.

(** The line feed, written <<\n>> in the source. *)
Definition nl : string := String (ascii_of_nat 10) EmptyString.

(** [s.startsWith(p)] *)
Definition startsWith (s p : string) : bool := String.prefix p s.

(** [s.endsWith(p)]: the last [length p] code units of [s] are [p]. *)
Definition endsWith (s p : string) : bool :=
  (String.length p <=? String.length s)%nat &&
  (String.substring (String.length s - String.length p) (String.length p) s =? p).

(** [s.includes(p)] *)
Fixpoint includes (s p : string) : bool :=
  String.prefix p s ||
  match s with
  | EmptyString => false
  | String _ s' => includes s' p
  end.

(** [s.substring(start, end)]: both indices are clamped to [0, length s] and
    swapped when [start > end]. *)
Definition clamp (len : nat) (i : Z) : nat :=
  Nat.min (Z.to_nat i) len.

Definition substring2 (s : string) (start finish : Z) : string :=
  let a := clamp (String.length s) start in
  let b := clamp (String.length s) finish in
  String.substring (Nat.min a b) (Nat.max a b - Nat.min a b) s.

(** [s.substring(start)] *)
Definition substring1 (s : string) (start : Z) : string :=
  substring2 s start (Z.of_nat (String.length s)).

(** [s.split(sep)] for a non-empty separator (both call sites pass one):
    the fields between the non-overlapping occurrences of [sep], found from
    the left.  [skip] counts the code units of a matched separator that are
    still to be passed over. *)
Fixpoint split_from (sep : string) (skip : nat) (s : string) : list string :=
  match s with
  | EmptyString => [EmptyString]
  | String c s' =>
      match skip with
      | S k => split_from sep k s'
      | O =>
          if String.prefix sep s
          then EmptyString :: split_from sep (String.length sep - 1) s'
          else match split_from sep 0 s' with
               | field :: fields => String c field :: fields
               | [] => [String c EmptyString]
               end
      end
  end.

Definition split (s sep : string) : list string := split_from sep 0 s.

(** White space and line terminators removed by [trim], among the code
    units 0..255: TAB, LF, VT, FF, CR, SP, NBSP. *)
Definition isWhiteSpace (c : ascii) : bool :=
  let n := nat_of_ascii c in
  ((9 <=? n) && (n <=? 13) || (n =? 32) || (n =? 160))%nat.

Fixpoint trimStart (s : string) : string :=
  match s with
  | EmptyString => EmptyString
  | String c s' => if isWhiteSpace c then trimStart s' else s
  end.

Fixpoint trimEnd (s : string) : string :=
  match s with
  | EmptyString => EmptyString
  | String c s' =>
      match trimEnd s' with
      | EmptyString => if isWhiteSpace c then EmptyString else String c EmptyString
      | t => String c t
      end
  end.

Definition trim (s : string) : string := trimEnd (trimStart s).

(** A string is falsy exactly when it is empty. *)
Definition truthy (s : string) : bool := negb (s =? "").

(** [`${n}`] for a non-negative integer: its decimal digits. *)
Definition decimal (n : nat) : string := NilZero.string_of_uint (Nat.to_uint n).

End JS.

(** ** Plain objects used as dictionaries

    [const o: Record<string, V> = {}] is an ordinary object whose prototype is
    [Object.prototype].  Its own properties are kept here in creation order. *)

Module Obj.

Section Dict.
Context {V : Type}.

Definition t : Type := list (string * V).

Definition empty : t := [].

Fixpoint own (o : t) (k : string) : option V :=
  match o with
  | [] => None
  | (k', v) :: o' => if k' =? k then Some v else own o' k
  end.

(** [o[k] = v]: an own property keeps its place, a new one is created last. *)
Fixpoint set (o : t) (k : string) (v : V) : t :=
  match o with
  | [] => [(k, v)]
  | (k', v') :: o' => if k' =? k then (k', v) :: o' else (k', v') :: set o' k v
  end.

End Dict.
Arguments t V : clear implicits.

(** The property names every object inherits from [Object.prototype]; each
    one reads as a function, or for [__proto__] as the prototype object:
    a truthy value that is not an array. *)
Definition prototypeNames : list string :=
  [ "constructor"; "__defineGetter__"; "__defineSetter__"; "hasOwnProperty";
    "__lookupGetter__"; "__lookupSetter__"; "isPrototypeOf";
    "propertyIsEnumerable"; "toString"; "valueOf"; "__proto__";
    "toLocaleString" ].

Definition inherited (k : string) : bool :=
  existsb (String.eqb k) prototypeNames.

(** What [o[k]] evaluates to. *)
Inductive value (V : Type) : Type :=
| Undefined
| Own (v : V)
| Inherited.
Arguments Undefined {V}.
Arguments Own {V} v.
Arguments Inherited {V}.

Definition get {V : Type} (o : t V) (k : string) : value V :=
  match own o k with
  | Some v => Own v
  | None => if inherited k then Inherited else Undefined
  end.

(** Array indices: the canonical decimal strings of the integers
    0 .. 2^32 - 2.  [Object.keys] lists them first, in ascending order. *)
Definition digit (c : ascii) : option N :=
  let n := N_of_ascii c in
  if ((48 <=? n) && (n <=? 57))%N then Some (n - 48)%N else None.

Fixpoint digits (s : string) (acc : N) : option N :=
  match s with
  | EmptyString => Some acc
  | String c s' =>
      match digit c with
      | Some d => digits s' (acc * 10 + d)%N
      | None => None
      end
  end.

Definition arrayIndex (k : string) : option N :=
  match k with
  | EmptyString => None
  | String c rest =>
      if (Ascii.eqb c "0"%char) && negb (rest =? "") then None
      else match digits k 0 with
           | Some n => if (n <? 4294967295)%N then Some n else None
           | None => None
           end
  end.

Definition isArrayIndex (k : string) : bool :=
  match arrayIndex k with Some _ => true | None => false end.

Definition indexOf (k : string) : N :=
  match arrayIndex k with Some n => n | None => 0%N end.

(** Insertion sort of array-index keys by numeric value. *)
Fixpoint insertKey (k : string) (ks : list string) : list string :=
  match ks with
  | [] => [k]
  | k' :: ks' =>
      if (indexOf k <=? indexOf k')%N then k :: ks else k' :: insertKey k ks'
  end.

Fixpoint sortKeys (ks : list string) : list string :=
  match ks with
  | [] => []
  | k :: ks' => insertKey k (sortKeys ks')
  end.

(** [Object.keys(o)]: array indices ascending, then the other names in
    creation order. *)
Definition keys {V : Type} (o : t V) : list string :=
  let names := map fst o in
  (sortKeys (filter isArrayIndex names) ++
   filter (fun k => negb (isArrayIndex k)) names)%list.

(** [Object.entries(o)] *)
Definition entries {V : Type} (o : t V) : list (string * V) :=
  flat_map (fun k => match own o k with
                     | Some v => [(k, v)]
                     | None => []
                     end) (keys o).

End Obj.

(** ** Data model (lib/supabase.ts)

    The geocoordinates of a visit ([number | null]) play no part in the
    report and are left out. *)

Inductive VisitStatus : Type := draft | completed.

Record Visit : Type := mkVisit {
  visit_id_ : string;
  user_id : string;
  college_name : string;
  visit_date : string;
  location : string;
  status : VisitStatus;
  visit_created_at : string;
  visit_updated_at : string
}.

Record Photo : Type := mkPhoto {
  photo_id : string;
  photo_visit_id : string;
  photo_url : string;
  caption : string;
  photo_created_at : string
}.

Record Note : Type := mkNote {
  note_id : string;
  note_visit_id : string;
  category : string;
  content : string;
  note_created_at : string;
  note_updated_at : string
}.

(** [xs.forEach(f)] where the callback updates a state and may throw. *)
Fixpoint forEach {A S : Type} (xs : list A) (f : S -> A -> result S) (s : S)
  : result S :=
  match xs with
  | [] => Ok s
  | x :: xs' => s' <- f s x ;; forEach xs' f s'
  end.

(** ** The report composer *)

Module Composer.
Import JS.

(** The error raised when [push] is called on a value that has none. *)
Definition pushError : error :=
  TypeError "notesByCategory[note.category].push is not a function".

(** The callback of [notes.forEach] at the top of [createReport]:
<<
  if (!notesByCategory[note.category]) notesByCategory[note.category] = [];
  notesByCategory[note.category].push(note);
>>
    An inherited member is truthy and has no [push]: calling it throws. *)
Definition groupStep (notesByCategory : Obj.t (list Note)) (note : Note)
  : result (Obj.t (list Note)) :=
  let notesByCategory :=
    match Obj.get notesByCategory (category note) with
    | Obj.Undefined => Obj.set notesByCategory (category note) []
    | _ => notesByCategory
    end in
  match Obj.get notesByCategory (category note) with
  | Obj.Own categoryNotes =>
      Ok (Obj.set notesByCategory (category note) (categoryNotes ++ [note])%list)
  | _ => Throw pushError
  end.

Definition groupNotes (notes : list Note) : result (Obj.t (list Note)) :=
  forEach notes groupStep Obj.empty.

Definition categoryTitles : Obj.t string :=
  [ ("academics", "Academic Programs & Quality");
    ("campus", "Campus Life & Culture");
    ("facilities", "Facilities & Resources");
    ("location", "Location & Surroundings");
    ("housing", "Housing & Accommodation");
    ("financial", "Financial Aid & Costs");
    ("social", "Social Environment");
    ("general", "General Observations") ].

(** Truthiness of [notesByCategory[k]]: arrays and inherited members are
    truthy, [undefined] is not. *)
Definition has (notesByCategory : Obj.t (list Note)) (k : string) : bool :=
  match Obj.get notesByCategory k with
  | Obj.Undefined => false
  | _ => true
  end.

(** [n !== 1 ? 's' : ''] *)
Definition plural (n : nat) : string := if negb (n =? 1)%nat then "s" else "".

Section Host.

(** [new Date(d).toLocaleDateString('en-US', {year, month, day})] *)
Variable toLocaleDateString : string -> string.
(** [new Date().toLocaleDateString('en-US', {year, month, day})], read from
    the clock when the report is composed. *)
Variable today : string.
(** [`${m}`] for a member [m] inherited from [Object.prototype]; the text
    depends on the engine. *)
Variable nativeText : string -> string.

(** [categoryTitles[category] || category] *)
Definition heading (category : string) : string :=
  match Obj.get categoryTitles category with
  | Obj.Own title => if truthy title then title else category
  | Obj.Undefined => category
  | Obj.Inherited => nativeText category
  end.

(** The block guarded by [Object.keys(notesByCategory).length > 0]. *)
Definition detailedObservations (notesByCategory : Obj.t (list Note))
  (report : string) : string :=
  if (0 <? List.length (Obj.keys notesByCategory))%nat then
    let report := report ++ "## Detailed Observations" ++ nl ++ nl in
    fold_left
      (fun report '(category, categoryNotes) =>
         let report := report ++ "### " ++ heading category ++ nl ++ nl in
         fold_left (fun report note => report ++ content note ++ nl ++ nl)
                   categoryNotes report)
      (Obj.entries notesByCategory) report
  else report.

(** The block guarded by [photos.length > 0]. *)
Definition visualDocumentation (photos : list Photo) (report : string) : string :=
  if (0 <? List.length photos)%nat then
    let report := report ++ "## Visual Documentation" ++ nl ++ nl in
    let report := report ++ "I captured " ++ decimal (List.length photos)
      ++ " photo" ++ plural (List.length photos)
      ++ " during my visit, documenting various aspects of the campus including:"
      ++ nl ++ nl in
    let report :=
      fold_left
        (fun report photo =>
           if truthy (caption photo)
           then report ++ "- " ++ caption photo ++ nl
           else report)
        photos report in
    report ++ nl
  else report.

(** The array [keyPoints], filled by seven guarded [push]es. *)
Definition keyPoints (notesByCategory : Obj.t (list Note)) : list string :=
  let keyPoints := [] in
  let keyPoints :=
    if has notesByCategory "academics"
    then (keyPoints ++ ["Academic programs and educational opportunities were evaluated"])%list
    else keyPoints in
  let keyPoints :=
    if has notesByCategory "campus"
    then (keyPoints ++ ["Campus culture and student life were observed"])%list
    else keyPoints in
  let keyPoints :=
    if has notesByCategory "facilities"
    then (keyPoints ++ ["Campus facilities and resources were examined"])%list
    else keyPoints in
  let keyPoints :=
    if has notesByCategory "location"
    then (keyPoints ++ ["Location and surrounding area were assessed"])%list
    else keyPoints in
  let keyPoints :=
    if has notesByCategory "housing"
    then (keyPoints ++ ["Housing options and living arrangements were reviewed"])%list
    else keyPoints in
  let keyPoints :=
    if has notesByCategory "financial"
    then (keyPoints ++ ["Financial considerations and aid opportunities were discussed"])%list
    else keyPoints in
  let keyPoints :=
    if has notesByCategory "social"
    then (keyPoints ++ ["Social environment and community aspects were evaluated"])%list
    else keyPoints in
  keyPoints.

Definition fallbackSentence : string :=
  "While I didn't record specific notes during this visit, the experience and photos provide valuable documentation for future reference.".

Definition keyTakeaways (notes : list Note) (notesByCategory : Obj.t (list Note))
  (report : string) : string :=
  let report := report ++ "## Key Takeaways" ++ nl ++ nl in
  if (List.length notes =? 0)%nat then
    report ++ fallbackSentence ++ nl ++ nl
  else
    let report := report
      ++ "Based on my observations and notes, here are the main points to consider:"
      ++ nl ++ nl in
    let report :=
      fold_left (fun report point => report ++ "- " ++ point ++ nl)
                (keyPoints notesByCategory) report in
    report ++ nl.

Definition executiveSummary (visit : Visit) (photos : list Photo)
  (notes : list Note) (notesByCategory : Obj.t (list Note)) (report : string)
  : string :=
  let report := report ++ "## Executive Summary" ++ nl ++ nl in
  let report := report ++ "This report documents my visit to "
    ++ college_name visit ++ ". " in
  let report := report ++ "During this visit, I took "
    ++ decimal (List.length photos) ++ " photo" ++ plural (List.length photos) ++ " " in
  let report := report ++ "and recorded "
    ++ decimal (List.length notes) ++ " detailed note" ++ plural (List.length notes) ++ " " in
  report ++ "across " ++ decimal (List.length (Obj.keys notesByCategory))
    ++ " different categories." ++ nl ++ nl.

Definition nextSteps (report : string) : string :=
  let report := report ++ "## Next Steps" ++ nl ++ nl in
  let report := report ++ "- Review this report alongside other college visit reports" ++ nl in
  let report := report ++ "- Compare academic programs, campus culture, and overall fit" ++ nl in
  let report := report ++ "- Consider revisiting if needed for deeper exploration" ++ nl in
  let report := report ++ "- Discuss findings with family, counselors, and mentors" ++ nl in
  report ++ "- Make informed decisions about college applications" ++ nl ++ nl.

Definition createReport (visit : Visit) (photos : list Photo) (notes : list Note)
  : result string :=
  notesByCategory <- groupNotes notes ;;
  let report := "# College Visit Report: " ++ college_name visit ++ nl ++ nl in
  let report := report ++ "**Visit Date:** "
    ++ toLocaleDateString (visit_date visit) ++ nl ++ nl in
  let report :=
    if truthy (location visit)
    then report ++ "**Location:** " ++ location visit ++ nl ++ nl
    else report in
  let report := report ++ "---" ++ nl ++ nl in
  let report := executiveSummary visit photos notes notesByCategory report in
  let report := detailedObservations notesByCategory report in
  let report := visualDocumentation photos report in
  let report := keyTakeaways notes notesByCategory report in
  let report := nextSteps report in
  let report := report ++ "---" ++ nl ++ nl in
  let report := report ++ "*Report generated on " ++ today ++ "*" ++ nl in
  Ok report.

End Host.
End Composer.

(** ** The renderer (the body of [report_content.split('\n').map(...)]) *)

Module Renderer.
Import JS.

Inductive Run : Type :=
| Span (text : string)
| Strong (text : string).

Inductive BlockElement : Type :=
| Heading1 (text : string)
| Heading2 (text : string)
| Heading3 (text : string)
| BoldParagraph (text : string)
| MixedParagraph (runs : list Run)
| ListItem (text : string)
| Rule
| LineBreak
| PlainParagraph (text : string).

(** [parts.map((part, i) => i % 2 === 0 ? <span> : <strong>)] *)
Fixpoint runsFrom (i : nat) (parts : list string) : list Run :=
  match parts with
  | [] => []
  | part :: parts' =>
      (if (i mod 2 =? 0)%nat then Span part else Strong part)
      :: runsFrom (S i) parts'
  end.

Definition runs (parts : list string) : list Run := runsFrom 0 parts.

Definition classify (line : string) : BlockElement :=
  if startsWith line "# " then Heading1 (substring1 line 2)
  else if startsWith line "## " then Heading2 (substring1 line 3)
  else if startsWith line "### " then Heading3 (substring1 line 4)
  else if startsWith line "**" && endsWith line "**" then
    BoldParagraph (substring2 line 2 (Z.of_nat (String.length line) - 2))
  else if includes line "**" then MixedParagraph (runs (split line "**"))
  else if startsWith line "- " then ListItem (substring1 line 2)
  else if line =? "---" then Rule
  else if trim line =? "" then LineBreak
  else PlainParagraph line.

Definition render (report_content : string) : list BlockElement :=
  map classify (split report_content nl).

End Renderer.

(** ** The other components

    The handlers around the composer and the renderer.  A handler that
    awaits the record store is a function of the store's answers; it returns
    the calls it makes and the callbacks it fires, in order, and the
    component state it leaves. *)

Record Report : Type := mkReport {
  report_id : string;
  report_visit_id : string;
  report_content : string;
  report_created_at : string
}.

(** The answer [{ data, error }] of a store call; both fields may be null. *)
Record Response (A : Type) : Type := mkResponse {
  res_data : option A;
  res_error : option string
}.
Arguments mkResponse {A} res_data res_error.
Arguments res_data {A} r.
Arguments res_error {A} r.

(** [xs.pop()]: the last element, [undefined] on an empty array. *)
Fixpoint pop {A : Type} (xs : list A) : option A :=
  match xs with
  | [] => None
  | [x] => Some x
  | _ :: rest => pop rest
  end.

(** *** ReportView: generating and downloading *)

Module ReportView.
Import JS.

Inductive Event : Type :=
| SetGenerating (flag : bool)
| InsertReport (visit_id report_content : string)
| OnReportGenerated (report : Report)
| ConsoleError (label : string)
| Alert (message : string).

Definition failure : list Event :=
  [ConsoleError "Error generating report:"; Alert "Failed to generate report"].

Section Host.
Variable toLocaleDateString : string -> string.
Variable today : string.
Variable nativeText : string -> string.
(** The store's answer to the insert of a report row. *)
Variable insertReport : string -> string -> Response Report.

(** [generateReport]: the flag is set, the body runs inside [try], a thrown
    error is caught, logged and announced, and [finally] clears the flag. *)
Definition generateReport (visit : Visit) (photos : list Photo) (notes : list Note)
  : list Event :=
  (SetGenerating true ::
   match Composer.createReport toLocaleDateString today nativeText visit photos notes with
   | Throw _ => failure
   | Ok reportContent =>
       InsertReport (visit_id_ visit) reportContent ::
       let response := insertReport (visit_id_ visit) reportContent in
       match res_error response with
       | Some _ => failure
       | None =>
           match res_data response with
           | Some data => [OnReportGenerated data]
           | None => []
           end
       end
   end ++ [SetGenerating false])%list.

End Host.

(** [s.replace(/\s+/g, replacement)] for a replacement without dollar sign:
    every maximal run of white space becomes one replacement.  [inRun] tells
    that the previous code unit was white space. *)
Fixpoint replaceRuns (replacement : string) (inRun : bool) (s : string) : string :=
  match s with
  | EmptyString => EmptyString
  | String c s' =>
      if isWhiteSpace c
      then (if inRun then replaceRuns replacement true s'
            else replacement ++ replaceRuns replacement true s')
      else String c (replaceRuns replacement false s')
  end.

Definition replaceWhiteSpace (s replacement : string) : string :=
  replaceRuns replacement false s.

Record Download : Type := mkDownload {
  blob : string;
  mime : string;
  download : string
}.

(** [downloadReport]: nothing without a report; otherwise the stored text is
    offered under a name made from the college name. *)
Definition downloadReport (visit : Visit) (report : option Report) : option Download :=
  match report with
  | None => None
  | Some report =>
      Some (mkDownload (report_content report) "text/markdown"
              (replaceWhiteSpace (college_name visit) "_" ++ "_Visit_Report.md"))
  end.

End ReportView.

(** *** NotesList: the note editor *)

Module NotesList.
Import JS.

Record Category : Type := mkCategory { value : string; label : string }.

Definition CATEGORIES : list Category :=
  [ mkCategory "academics" "Academics";
    mkCategory "campus" "Campus Life";
    mkCategory "facilities" "Facilities";
    mkCategory "location" "Location";
    mkCategory "housing" "Housing";
    mkCategory "financial" "Financial Aid";
    mkCategory "social" "Social Scene";
    mkCategory "general" "General" ].

(** The component state ([useState] cells). *)
Record Form : Type := mkForm {
  showAddNote : bool;
  formCategory : string;
  formContent : string;
  saving : bool;
  editingNote : option Note
}.

Definition initial : Form := mkForm false "general" "" false None.

Inductive Event : Type :=
| UpdateNote (id content category updated_at : string)
| InsertNote (visit_id category content : string)
| OnNoteAdded (note : Note)
| ConsoleError (label : string)
| Alert (message : string).

Definition failure : list Event :=
  [ConsoleError "Error saving note:"; Alert "Failed to save note"].

Section Host.
Variable visitId : string.
(** [new Date().toISOString()] when the note is updated. *)
Variable now : string.
(** The store's answers to the update and to the insert of a note row. *)
Variable updateNote : string -> string -> string -> string -> Response Note.
Variable insertNote : string -> string -> string -> Response Note.

(** [handleSaveNote].  The handler reads [content], [category] and
    [editingNote] as they were when it started. *)
Definition handleSaveNote (form : Form) : Form * list Event :=
  if negb (truthy (trim (formContent form))) then (form, [])
  else
    let content := formContent form in
    let category := formCategory form in
    (* setSaving(true) ... finally setSaving(false) *)
    match editingNote form with
    | Some note =>
        let response := updateNote (note_id note) content category now in
        match res_error response with
        | Some _ =>
            (mkForm (showAddNote form) category content false (Some note),
             (UpdateNote (note_id note) content category now :: failure)%list)
        | None =>
            (* setEditingNote(null); setContent(''); setCategory('general');
               setShowAddNote(false) *)
            (mkForm false "general" "" false None,
             [UpdateNote (note_id note) content category now])
        end
    | None =>
        let response := insertNote visitId category content in
        match res_error response with
        | Some _ =>
            (mkForm (showAddNote form) category content false None,
             (InsertNote visitId category content :: failure)%list)
        | None =>
            (mkForm false "general" "" false None,
             (InsertNote visitId category content ::
              match res_data response with
              | Some data => [OnNoteAdded data]
              | None => []
              end)%list)
        end
    end.

End Host.

Definition handleEditNote (note : Note) (form : Form) : Form :=
  mkForm true (category note) (content note) (saving form) (Some note).

Definition cancelEdit (form : Form) : Form :=
  mkForm false "general" "" (saving form) None.

Definition colors : Obj.t string :=
  [ ("academics", "bg-blue-100 text-blue-700");
    ("campus", "bg-green-100 text-green-700");
    ("facilities", "bg-purple-100 text-purple-700");
    ("location", "bg-orange-100 text-orange-700");
    ("housing", "bg-yellow-100 text-yellow-700");
    ("financial", "bg-red-100 text-red-700");
    ("social", "bg-pink-100 text-pink-700");
    ("general", "bg-gray-100 text-gray-700") ].

(** [colors[cat] || colors.general]; [nativeText] is the text of a member
    inherited from [Object.prototype]. *)
Definition getCategoryColor (nativeText : string -> string) (cat : string) : string :=
  let general :=
    match Obj.own colors "general" with Some c => c | None => "undefined" end in
  match Obj.get colors cat with
  | Obj.Own color => if truthy color then color else general
  | Obj.Undefined => general
  | Obj.Inherited => nativeText cat
  end.

(** [CATEGORIES.find(c => c.value === note.category)?.label || note.category] *)
Definition categoryLabel (category : string) : string :=
  match find (fun c => value c =? category) CATEGORIES with
  | Some c => if truthy (label c) then label c else category
  | None => category
  end.

End NotesList.

(** *** VisitDetail and Dashboard: the lists held by the parents *)

Module VisitDetail.

Definition handlePhotoAdded (photo : Photo) (photos : list Photo) : list Photo :=
  photo :: photos.

Definition handlePhotoDeleted (photoId : string) (photos : list Photo) : list Photo :=
  filter (fun p => negb (photo_id p =? photoId)) photos.

Definition handleNoteAdded (note : Note) (notes : list Note) : list Note :=
  note :: notes.

Definition handleNoteDeleted (noteId : string) (notes : list Note) : list Note :=
  filter (fun n => negb (note_id n =? noteId)) notes.

End VisitDetail.

Module Dashboard.

Definition handleVisitCreated (visit : Visit) (visits : list Visit) : list Visit :=
  visit :: visits.

Definition handleVisitDeleted (visitId : string) (visits : list Visit) : list Visit :=
  filter (fun v => negb (visit_id_ v =? visitId)) visits.

End Dashboard.

(** *** PhotoGallery: naming and storing an upload *)

Module PhotoGallery.
Import JS.

(** [selectedFile.name.split('.').pop()] *)
Definition fileExt (name : string) : option string := pop (split name ".").

(** [`${visitId}/${Date.now()}.${fileExt}`] *)
Definition fileName (visitId : string) (now : nat) (name : string) : string :=
  visitId ++ "/" ++ decimal now ++ "."
  ++ match fileExt name with Some ext => ext | None => "undefined" end.

Inductive Event : Type :=
| SetUploading (flag : bool)
| Upload (path : string)
| CreateBucket
| InsertPhoto (visit_id photo_url caption : string)
| OnPhotoAdded (photo : Photo)
| CloseCaptionModal   (* the modal is hidden; file, preview and caption are cleared *)
| ConsoleError (label : string)
| Alert (message : string).

Definition failure : list Event :=
  [ConsoleError "Error uploading photo:"; Alert "Failed to upload photo"].

(** The answers of the object store and of the record store, in the order
    [handleUpload] asks for them. *)
Record Answers : Type := mkAnswers {
  uploadError : option string;        (* message of the first upload's error *)
  bucketError : option string;        (* error of createBucket *)
  publicUrl : string -> string;       (* getPublicUrl(fileName) *)
  insertPhoto : string -> string -> string -> Response Photo
}.

(** [handleUpload]: nothing without a selected file; otherwise the calls it
    makes between setting and clearing the [uploading] flag.  The answer of
    the second upload is not read. *)
Definition handleUpload (visitId caption : string) (now : nat)
  (selectedFile : option string) (answers : Answers) : list Event :=
  match selectedFile with
  | None => []
  | Some name =>
      let path := fileName visitId now name in
      let store :=
        (let url := publicUrl answers path in
         InsertPhoto visitId url caption ::
         let response := insertPhoto answers visitId url caption in
         match res_error response with
         | Some _ => failure
         | None =>
             match res_data response with
             | Some data => [OnPhotoAdded data; CloseCaptionModal]
             | None => []
             end
         end)%list in
      (SetUploading true :: Upload path ::
       match uploadError answers with
       | None => store
       | Some message =>
           if includes message "not found" then
             CreateBucket ::
             match bucketError answers with
             | None => Upload path :: store
             | Some _ => store
             end
           else failure
       end ++ [SetUploading false])%list
  end.

End PhotoGallery.

(** *** NewVisitModal *)

Module NewVisitModal.
Import JS.

(** [new Date().toISOString().split('T')[0]] *)
Definition defaultVisitDate (iso : string) : option string :=
  nth_error (split iso "T") 0.

(** The row [handleSubmit] asks the store to insert. *)
Record NewVisit : Type := mkNewVisit {
  new_user_id : string;
  new_college_name : string;
  new_visit_date : string;
  new_location : string;
  new_status : VisitStatus
}.

(** An error the store answers with: its message, and whether it is an
    instance of [Error] (the message is shown only then). *)
Record StoreError : Type := mkStoreError {
  message : string;
  instanceOfError : bool
}.

Inductive Event : Type :=
| SetError (message : string)
| SetLoading (flag : bool)
| GetUser
| InsertVisit (row : NewVisit)
| OnVisitCreated (visit : Visit).

(** [err instanceof Error ? err.message : 'An error occurred'] *)
Definition shown (err : StoreError) : string :=
  if instanceOfError err then message err else "An error occurred".

(** [handleSubmit] for the form fields [collegeName], [visitDate] and
    [location]; [user] is the id of the signed-in user, if any, and [insert]
    the store's answer ([data], [error]) to the insert. *)
Definition handleSubmit (collegeName visitDate location : string)
  (user : option string) (insert : NewVisit -> option Visit * option StoreError)
  : list Event :=
  ([SetError ""; SetLoading true; GetUser] ++
   match user with
   | None => [SetError "Not authenticated"]
   | Some id =>
       let row := mkNewVisit id collegeName visitDate location draft in
       InsertVisit row ::
       match insert row with
       | (_, Some insertError) => [SetError (shown insertError)]
       | (Some data, None) => [OnVisitCreated data]
       | (None, None) => []
       end
   end ++ [SetLoading false])%list.

End NewVisitModal.

(** ** Reference definitions, following the specification's words *)

Module Spec.
Import JS.

(** Categories in order of first occurrence. *)
Fixpoint firstSeen (categories : list string) : list string :=
  match categories with
  | [] => []
  | c :: rest => c :: filter (fun d => negb (d =? c)) (firstSeen rest)
  end.

(** The notes of one category, in input order. *)
Definition notesOf (c : string) (notes : list Note) : list Note :=
  filter (fun note => category note =? c) notes.

(** The stable grouping: one entry per category, categories in order of
    first occurrence, each with its notes in input order. *)
Definition stableGrouping (notes : list Note) : list (string * list Note) :=
  map (fun c => (c, notesOf c notes)) (firstSeen (map category notes)).

(** Concatenation of a list of text pieces. *)
Definition joinAll (pieces : list string) : string :=
  fold_right String.append "" pieces.

(** A text without line feed. *)
Definition singleLine (s : string) : bool := negb (includes s nl).

(** [sub] occurs in [s]. *)
Definition occursIn (sub s : string) : Prop :=
  exists before after, s = before ++ sub ++ after.

(** A category tag that is neither an array index nor the name of a member
    of [Object.prototype]; the eight tags of the taxonomy are such. *)
Definition plainTag (c : string) : bool :=
  negb (Obj.isArrayIndex c) && negb (Obj.inherited c).

(** A note whose category does not name a member of [Object.prototype]. *)
Definition accepted (note : Note) : bool := negb (Obj.inherited (category note)).

Definition taxonomy : list string :=
  [ "academics"; "campus"; "facilities"; "location"; "housing"; "financial";
    "social"; "general" ].

(** Number of line feeds of a text. *)
Fixpoint countLineFeeds (s : string) : nat :=
  match s with
  | EmptyString => 0
  | String c s' =>
      (if Ascii.eqb c (ascii_of_nat 10) then 1 else 0) + countLineFeeds s'
  end.

(** The text made of the given lines, each one closed by a line feed. *)
Definition unlines (lines : list string) : string :=
  joinAll (map (fun line => line ++ nl) lines).

(** *** The logical units of a report, one per list element *)

Section Units.
Import Composer.

Variable toLocaleDateString : string -> string.
Variable today : string.
Variable nativeText : string -> string.

Definition titleLine (visit : Visit) : string :=
  "# College Visit Report: " ++ college_name visit.

Definition dateLine (visit : Visit) : string :=
  "**Visit Date:** " ++ toLocaleDateString (visit_date visit).

Definition locationLine (visit : Visit) : string :=
  "**Location:** " ++ location visit.

(** The count phrase [`${n} ${noun}${n !== 1 ? 's' : ''}`]. *)
Definition countPhrase (n : nat) (noun : string) : string :=
  decimal n ++ " " ++ noun ++ plural n.

Definition summaryLine (visit : Visit) (photos notes categories : nat) : string :=
  "This report documents my visit to " ++ college_name visit
  ++ ". During this visit, I took " ++ countPhrase photos "photo"
  ++ " and recorded " ++ decimal notes ++ " detailed note" ++ plural notes
  ++ " across " ++ decimal categories ++ " different categories.".

Definition photoSummaryLine (photos : nat) : string :=
  "I captured " ++ countPhrase photos "photo"
  ++ " during my visit, documenting various aspects of the campus including:".

Definition bulletLine (text : string) : string := "- " ++ text.

Definition headerLines (visit : Visit) : list string :=
  ([titleLine visit; ""; dateLine visit; ""]
   ++ (if truthy (location visit) then [locationLine visit; ""] else [])
   ++ ["---"; ""])%list.

Definition summaryLines (visit : Visit) (photos notes categories : nat)
  : list string :=
  ["## Executive Summary"; ""; summaryLine visit photos notes categories; ""].

Definition noteLines (notes : list Note) : list string :=
  flat_map (fun note => [content note; ""]) notes.

Definition categoryLines (entry : string * list Note) : list string :=
  ([("### " ++ heading nativeText (fst entry))%string; ""]
   ++ noteLines (snd entry))%list.

Definition observationLines (groups : list (string * list Note)) : list string :=
  match groups with
  | [] => []
  | _ => (["## Detailed Observations"; ""] ++ flat_map categoryLines groups)%list
  end.

Definition captioned (photos : list Photo) : list Photo :=
  filter (fun photo => truthy (caption photo)) photos.

Definition photoLines (photos : list Photo) : list string :=
  match photos with
  | [] => []
  | _ => (["## Visual Documentation"; ""; photoSummaryLine (List.length photos); ""]
          ++ map (fun photo => bulletLine (caption photo)) (captioned photos)
          ++ [""])%list
  end.

Definition takeawayLines (notes : list Note) (points : list string) : list string :=
  (["## Key Takeaways"; ""]
   ++ match notes with
      | [] => [fallbackSentence; ""]
      | _ => (["Based on my observations and notes, here are the main points to consider:"; ""]
              ++ map bulletLine points ++ [""])%list
      end)%list.

Definition nextStepLines : list string :=
  [ "## Next Steps"; "";
    "- Review this report alongside other college visit reports";
    "- Compare academic programs, campus culture, and overall fit";
    "- Consider revisiting if needed for deeper exploration";
    "- Discuss findings with family, counselors, and mentors";
    "- Make informed decisions about college applications"; "" ].

Definition footerLines : list string :=
  ["---"; ""; "*Report generated on " ++ today ++ "*"].

(** All the lines of the report composed from a grouping [groups] (the
    entries of [notesByCategory]) with [categories] keys. *)
Definition documentLines (visit : Visit) (photos : list Photo) (notes : list Note)
  (groups : list (string * list Note)) (points : list string) : list string :=
  (headerLines visit
   ++ summaryLines visit (List.length photos) (List.length notes) (List.length groups)
   ++ observationLines groups
   ++ photoLines photos
   ++ takeawayLines notes points
   ++ nextStepLines
   ++ footerLines)%list.

End Units.


(** The seven categories with a key-point sentence, in the order of the
    guarded [push]es. *)
Definition keyPointTable : list (string * string) :=
  [ ("academics", "Academic programs and educational opportunities were evaluated");
    ("campus", "Campus culture and student life were observed");
    ("facilities", "Campus facilities and resources were examined");
    ("location", "Location and surrounding area were assessed");
    ("housing", "Housing options and living arrangements were reviewed");
    ("financial", "Financial considerations and aid opportunities were discussed");
    ("social", "Social environment and community aspects were evaluated") ].

(** The key points expected for a list of notes: the sentences of the
    table whose category some note carries, in table order. *)
Definition expectedKeyPoints (notes : list Note) : list string :=
  map snd
    (filter (fun row => existsb (fun note => category note =? fst row) notes)
            keyPointTable).

End Spec.

(** ** Sample inputs *)

Module Samples.

Definition note (category content : string) : Note :=
  mkNote "n" "v" category content "2025-03-01T10:00:00Z" "2025-03-01T10:00:00Z".

Definition photo (caption : string) : Photo :=
  mkPhoto "p" "v" "https://example.org/p.jpg" caption "2025-03-01T10:00:00Z".

Definition visit : Visit :=
  mkVisit "v" "u" "Example College" "2025-03-01" "Springfield" completed
          "2025-03-01T09:00:00Z" "2025-03-01T09:00:00Z".

Definition longDate (d : string) : string := "March 1, 2025".
Definition today : string := "March 2, 2025".
Definition nativeText (k : string) : string := "function () { [native code] }".

Definition notes : list Note :=
  [ note "campus" "Lively quad"; note "academics" "Strong physics";
    note "campus" "Many clubs"; note "general" "Friendly guide" ].

Definition photos : list Photo := [ photo "Library"; photo ""; photo "Main gate" ].

Definition report : string :=
  match Composer.createReport longDate today nativeText visit photos notes with
  | Ok text => text
  | Throw _ => ""
  end.

End Samples.

(** ** Reference notions for the further properties *)

From Stdlib Require Import Sorted.

Module Reference.
Import JS.

(** A text of white space only. *)
Definition blank (s : string) : bool :=
  forallb isWhiteSpace (list_ascii_of_string s).

(** A text without asterisk. *)
Definition noStar (s : string) : bool :=
  forallb (fun c => negb (Ascii.eqb c "*")) (list_ascii_of_string s).

(** A text without white space. *)
Definition noWhiteSpace (s : string) : bool :=
  forallb (fun c => negb (isWhiteSpace c)) (list_ascii_of_string s).

(** A text without the given character. *)
Definition without (c : ascii) (s : string) : bool :=
  forallb (fun d => negb (Ascii.eqb d c)) (list_ascii_of_string s).

(** What the report shows of a note and of a photo. *)
Definition noteText (note : Note) : string * string := (category note, content note).

(** Array-index keys compared by numeric value. *)
Definition byIndex (a b : string) : Prop := (Obj.indexOf a <= Obj.indexOf b)%N.

End Reference.

(** * Properties *)

(** ** Dictionaries *)

Module ObjFacts.
Import Obj.

Section Dict.
Context {V : Type}.
Implicit Types (o : Obj.t V) (k : string) (v : V).

Lemma own_None o k : own o k = None <-> ~ In k (map fst o).
Proof.
  induction o as [|[k' v'] o IH]; simpl.
  - tauto.
  - destruct (String.eqb_spec k' k) as [->|Hne].
    + split; [discriminate | intros H; exfalso; apply H; now left].
    + rewrite IH. tauto.
Qed.

Lemma own_In o k v : own o k = Some v -> In (k, v) o.
Proof.
  induction o as [|[k' v'] o IH]; simpl; [discriminate|].
  destruct (String.eqb_spec k' k) as [->|Hne].
  - intros [= ->]. now left.
  - intros H. right. now apply IH.
Qed.

Lemma In_own o k v : NoDup (map fst o) -> In (k, v) o -> own o k = Some v.
Proof.
  induction o as [|[k' v'] o IH]; simpl; [tauto|].
  intros Hnd [[= -> ->]|Hin].
  - now rewrite String.eqb_refl.
  - inversion Hnd as [|? ? Hnot Hnd']; subst.
    destruct (String.eqb_spec k' k) as [->|Hne].
    + exfalso. apply Hnot. now apply (in_map fst) in Hin.
    + now apply IH.
Qed.

Lemma own_snoc o k v : ~ In k (map fst o) -> own (o ++ [(k, v)])%list k = Some v.
Proof.
  induction o as [|[k' v'] o IH]; simpl; intros Hnot.
  - now rewrite String.eqb_refl.
  - destruct (String.eqb_spec k' k) as [->|Hne]; [tauto|].
    apply IH. tauto.
Qed.

Lemma set_fresh o k v : ~ In k (map fst o) -> set o k v = (o ++ [(k, v)])%list.
Proof.
  induction o as [|[k' v'] o IH]; simpl; intros Hnot; [reflexivity|].
  destruct (String.eqb_spec k' k) as [->|Hne]; [tauto|].
  rewrite IH; tauto.
Qed.

Lemma set_snoc o k v v' :
  ~ In k (map fst o) -> set (o ++ [(k, v)])%list k v' = (o ++ [(k, v')])%list.
Proof.
  induction o as [|[k0 v0] o IH]; simpl; intros Hnot.
  - now rewrite String.eqb_refl.
  - destruct (String.eqb_spec k0 k) as [->|Hne]; [tauto|].
    rewrite IH; tauto.
Qed.

(** A dictionary tabulated from its key list. *)
Lemma own_tabulate (f : string -> V) ks k :
  own (map (fun c => (c, f c)) ks) k =
  if existsb (String.eqb k) ks then Some (f k) else None.
Proof.
  induction ks as [|c ks IH]; simpl; [reflexivity|].
  rewrite (String.eqb_sym k c).
  destruct (String.eqb_spec c k) as [->|Hne]; simpl; [reflexivity | exact IH].
Qed.

Lemma set_tabulate (f : string -> V) ks k v :
  NoDup ks -> In k ks ->
  set (map (fun c => (c, f c)) ks) k v =
  map (fun c => (c, if c =? k then v else f c)) ks.
Proof.
  induction ks as [|c ks IH]; simpl; [tauto|].
  intros Hnd Hin. inversion Hnd as [|? ? Hnot Hnd']; subst.
  destruct (String.eqb_spec c k) as [->|Hne].
  - f_equal. apply map_ext_in. intros c Hc.
    destruct (String.eqb_spec c k) as [->|_]; [contradiction | reflexivity].
  - f_equal. apply IH; [assumption|]. destruct Hin; [contradiction | assumption].
Qed.

End Dict.

Lemma existsb_eqb_In (k : string) ks : existsb (String.eqb k) ks = true <-> In k ks.
Proof.
  rewrite existsb_exists. split.
  - intros [x [Hin Heq]]. apply String.eqb_eq in Heq. now subst.
  - intros Hin. exists k. split; [assumption | apply String.eqb_refl].
Qed.

Lemma existsb_eqb_notIn (k : string) ks : existsb (String.eqb k) ks = false <-> ~ In k ks.
Proof.
  rewrite <- existsb_eqb_In. destruct (existsb _ ks); split; intros; congruence.
Qed.

(** [sortKeys] only reorders. *)
Lemma insertKey_perm k ks : Permutation (k :: ks) (insertKey k ks).
Proof.
  induction ks as [|k' ks IH]; simpl; [reflexivity|].
  destruct (indexOf k <=? indexOf k')%N; [reflexivity|].
  apply perm_trans with (k' :: k :: ks); [apply perm_swap | now apply perm_skip].
Qed.

Lemma sortKeys_perm ks : Permutation ks (sortKeys ks).
Proof.
  induction ks as [|k ks IH]; simpl; [reflexivity|].
  apply perm_trans with (k :: sortKeys ks); [now apply perm_skip | apply insertKey_perm].
Qed.

Lemma keys_perm {V : Type} (o : Obj.t V) : Permutation (map fst o) (keys o).
Proof.
  unfold keys. rewrite <- sortKeys_perm.
  induction (map fst o) as [|k ks IH]; simpl; [reflexivity|].
  destruct (isArrayIndex k); simpl.
  - now apply perm_skip.
  - rewrite IH at 1. apply Permutation_middle.
Qed.

Lemma filter_none {A : Type} (f : A -> bool) l :
  Forall (fun x => f x = false) l ->
  filter f l = [] /\ filter (fun x => negb (f x)) l = l.
Proof.
  induction 1 as [|x l Hx _ [IH1 IH2]]; simpl; [now split|].
  rewrite Hx. simpl. split; [assumption | now f_equal].
Qed.

(** Without array indices, [Object.keys] is the creation order. *)
Lemma keys_creation_order {V : Type} (o : Obj.t V) :
  Forall (fun k => isArrayIndex k = false) (map fst o) -> keys o = map fst o.
Proof.
  intros H. unfold keys. destruct (filter_none _ _ H) as [-> ->]. reflexivity.
Qed.

Lemma entries_In {V : Type} (o : Obj.t V) k v :
  NoDup (map fst o) -> (In (k, v) (entries o) <-> In (k, v) o).
Proof.
  intros Hnd. unfold entries. rewrite in_flat_map. split.
  - intros [k' [_ Hin]]. destruct (own o k') as [v'|] eqn:E; simpl in Hin; [|tauto].
    destruct Hin as [[= -> ->]|[]]. now apply own_In.
  - intros Hin. exists k. split.
    + apply (Permutation_in _ (keys_perm o)). now apply (in_map fst) in Hin.
    + rewrite (In_own _ _ _ Hnd Hin). now left.
Qed.

Lemma entries_creation_order {V : Type} (o : Obj.t V) :
  NoDup (map fst o) ->
  Forall (fun k => isArrayIndex k = false) (map fst o) ->
  entries o = o.
Proof.
  intros Hnd Hidx. unfold entries. rewrite (keys_creation_order _ Hidx).
  clear Hidx.
  assert (H : forall o', (forall k v, In (k, v) o' -> own o k = Some v) ->
    flat_map (fun k => match own o k with Some v => [(k, v)] | None => [] end)
             (map fst o') = o').
  { induction o' as [|[k v] o' IH]; simpl; intros Hown; [reflexivity|].
    rewrite (Hown k v) by now left. simpl. f_equal. apply IH.
    intros k' v' Hin. apply Hown. now right. }
  apply H. intros k v Hin. now apply In_own.
Qed.

End ObjFacts.

(** ** The grouping pass *)

Module GroupingFacts.
Import Obj ObjFacts Composer Spec.

Lemma firstSeen_In c cs : In c (firstSeen cs) <-> In c cs.
Proof.
  induction cs as [|a cs IH]; simpl; [tauto|].
  rewrite filter_In, IH.
  destruct (String.eqb_spec c a) as [->|Hne]; simpl.
  - split; auto.
  - split; [intros [H|[H _]]; auto | intros [H|H]; auto].
Qed.

Lemma firstSeen_NoDup cs : NoDup (firstSeen cs).
Proof.
  induction cs as [|a cs IH]; simpl; constructor.
  - rewrite filter_In, String.eqb_refl. simpl. intros [_ H]. discriminate.
  - now apply NoDup_filter.
Qed.

Lemma firstSeen_snoc cs c :
  firstSeen (cs ++ [c]) =
  if existsb (String.eqb c) cs then firstSeen cs else (firstSeen cs ++ [c])%list.
Proof.
  induction cs as [|a cs IH]; simpl; [reflexivity|].
  rewrite IH. destruct (String.eqb_spec c a) as [->|Hne]; simpl.
  - destruct (existsb (String.eqb a) cs); [reflexivity|].
    rewrite filter_app. simpl. rewrite String.eqb_refl. simpl.
    now rewrite app_nil_r.
  - destruct (existsb (String.eqb c) cs); [reflexivity|].
    rewrite filter_app. simpl.
    destruct (String.eqb_spec c a) as [->|_]; [contradiction | reflexivity].
Qed.

Lemma notesOf_snoc c pre n :
  notesOf c (pre ++ [n]) =
  (notesOf c pre ++ (if category n =? c then [n] else []))%list.
Proof. unfold notesOf. rewrite filter_app. reflexivity. Qed.

Lemma notesOf_absent c notes :
  ~ In c (map category notes) -> notesOf c notes = [].
Proof.
  unfold notesOf. induction notes as [|n notes IH]; simpl; [reflexivity|].
  intros Hnot. destruct (String.eqb_spec (category n) c) as [Heq|_]; [tauto|].
  apply IH. tauto.
Qed.

Lemma notesOf_In c notes n : In n (notesOf c notes) <-> In n notes /\ category n = c.
Proof. unfold notesOf. now rewrite filter_In, String.eqb_eq. Qed.

Lemma stableGrouping_keys notes :
  map fst (stableGrouping notes) = firstSeen (map category notes).
Proof.
  unfold stableGrouping. rewrite map_map. simpl. apply map_id.
Qed.

Lemma stableGrouping_snoc_seen pre n :
  In (category n) (map category pre) ->
  stableGrouping (pre ++ [n]) =
  map (fun c => (c, if c =? category n
                    then (notesOf (category n) pre ++ [n])%list
                    else notesOf c pre))
      (firstSeen (map category pre)).
Proof.
  intros Hin. unfold stableGrouping. rewrite map_app. simpl.
  rewrite firstSeen_snoc.
  apply existsb_eqb_In in Hin. rewrite Hin.
  apply map_ext. intros c. rewrite notesOf_snoc.
  rewrite (String.eqb_sym c).
  destruct (String.eqb_spec (category n) c) as [->|_];
    [reflexivity | now rewrite app_nil_r].
Qed.

Lemma stableGrouping_snoc_fresh pre n :
  ~ In (category n) (map category pre) ->
  stableGrouping (pre ++ [n]) =
  (stableGrouping pre ++ [(category n, [n])])%list.
Proof.
  intros Hnot. unfold stableGrouping. rewrite map_app. simpl.
  rewrite firstSeen_snoc.
  pose proof Hnot as Hb. apply existsb_eqb_notIn in Hb. rewrite Hb.
  rewrite map_app. simpl. f_equal.
  - apply map_ext_in. intros c Hc. rewrite notesOf_snoc.
    destruct (String.eqb_spec (category n) c) as [Heq|_].
    + exfalso. apply Hnot. rewrite Heq. now apply firstSeen_In.
    + now rewrite app_nil_r.
  - rewrite notesOf_snoc, String.eqb_refl, (notesOf_absent _ _ Hnot). reflexivity.
Qed.

(** One step from a grouped state: a note of a fresh or already seen
    category is appended to its group. *)
Lemma groupStep_ok pre n :
  inherited (category n) = false ->
  groupStep (stableGrouping pre) n = Ok (stableGrouping (pre ++ [n])).
Proof.
  intros Hinh. unfold groupStep, get.
  destruct (in_dec string_dec (category n) (map category pre)) as [Hin|Hnot].
  - assert (Hown : own (stableGrouping pre) (category n)
                   = Some (notesOf (category n) pre)).
    { unfold stableGrouping. rewrite own_tabulate.
      assert (Hfs : In (category n) (firstSeen (map category pre)))
        by now apply firstSeen_In.
      apply existsb_eqb_In in Hfs. now rewrite Hfs. }
    rewrite Hown. rewrite Hown. f_equal.
    rewrite (stableGrouping_snoc_seen _ _ Hin).
    unfold stableGrouping. apply set_tabulate.
    + apply firstSeen_NoDup.
    + now apply firstSeen_In.
  - assert (Hkeys : ~ In (category n) (map fst (stableGrouping pre))).
    { rewrite stableGrouping_keys, firstSeen_In. exact Hnot. }
    assert (Hown : own (stableGrouping pre) (category n) = None)
      by now apply own_None.
    rewrite Hown, Hinh. rewrite (set_fresh _ _ _ Hkeys).
    rewrite (own_snoc _ _ _ Hkeys). f_equal.
    rewrite (set_snoc _ _ _ _ Hkeys). simpl.
    now rewrite (stableGrouping_snoc_fresh _ _ Hnot).
Qed.

(** A note whose category names an inherited member makes [push] throw,
    unless that name is already an own property. *)
Lemma groupStep_throw pre n :
  inherited (category n) = true ->
  ~ In (category n) (map category pre) ->
  groupStep (stableGrouping pre) n = Throw pushError.
Proof.
  intros Hinh Hnot. unfold groupStep, get.
  assert (Hown : own (stableGrouping pre) (category n) = None).
  { apply own_None. rewrite stableGrouping_keys, firstSeen_In. exact Hnot. }
  rewrite Hown, Hinh. cbn. rewrite ?Hown, ?Hinh. reflexivity.
Qed.

Lemma forEach_groupStep notes : forall pre,
  forallb accepted pre = true ->
  forEach notes groupStep (stableGrouping pre) =
  if forallb accepted notes then Ok (stableGrouping (pre ++ notes))
  else Throw pushError.
Proof.
  induction notes as [|n notes IH]; intros pre Hpre; simpl.
  - now rewrite app_nil_r.
  - unfold accepted at 1. destruct (inherited (category n)) eqn:Hinh; simpl.
    + rewrite groupStep_throw; [reflexivity | assumption |].
      intros Hin. apply in_map_iff in Hin. destruct Hin as [m [Hcat Hm]].
      rewrite forallb_forall in Hpre. specialize (Hpre m Hm).
      unfold accepted in Hpre. rewrite Hcat, Hinh in Hpre. discriminate.
    + rewrite (groupStep_ok _ _ Hinh). simpl.
      rewrite IH.
      * now rewrite <- app_assoc.
      * rewrite forallb_app, Hpre. simpl. unfold accepted. now rewrite Hinh.
Qed.

(** [groupNotes] returns the stable grouping (in creation order) exactly when
    no category names a member of [Object.prototype], and throws otherwise. *)
Lemma groupNotes_spec notes :
  groupNotes notes =
  if forallb accepted notes then Ok (stableGrouping notes) else Throw pushError.
Proof. unfold groupNotes. apply (forEach_groupStep notes []). reflexivity. Qed.

Lemma groupNotes_Ok notes o :
  groupNotes notes = Ok o ->
  o = stableGrouping notes /\ forallb accepted notes = true.
Proof.
  rewrite groupNotes_spec. destruct (forallb accepted notes); [|discriminate].
  intros [= <-]. now split.
Qed.

End GroupingFacts.

(** ** Strings, lines and occurrences *)

Module StringFacts.
Import JS Spec.

Lemma append_assoc (a b c : string) : (a ++ b) ++ c = a ++ b ++ c.
Proof. induction a as [|x a IH]; simpl; [reflexivity | now rewrite IH]. Qed.

Lemma append_empty_r (a : string) : a ++ "" = a.
Proof. induction a as [|x a IH]; simpl; [reflexivity | now rewrite IH]. Qed.

Lemma joinAll_app (xs ys : list string) :
  joinAll (xs ++ ys) = joinAll xs ++ joinAll ys.
Proof.
  induction xs as [|x xs IH]; simpl; [reflexivity|].
  now rewrite IH, append_assoc.
Qed.

(** A loop that only appends to [report] appends the concatenation of what
    each round appends. *)
Lemma fold_left_append {A : Type} (f : A -> string) (xs : list A) (report : string) :
  fold_left (fun report x => report ++ f x) xs report =
  report ++ joinAll (map f xs).
Proof.
  revert report. induction xs as [|x xs IH]; intros report; simpl.
  - now rewrite append_empty_r.
  - now rewrite IH, append_assoc.
Qed.

Lemma prefix_empty (s : string) : String.prefix "" s = true.
Proof. now destruct s. Qed.

Lemma prefix_nl (c : ascii) (s : string) :
  String.prefix nl (String c s) = Ascii.eqb c (ascii_of_nat 10).
Proof.
  unfold nl. cbn [String.prefix].
  destruct (ascii_dec (ascii_of_nat 10) c) as [<-|Hne].
  - now rewrite prefix_empty, Ascii.eqb_refl.
  - symmetry. apply Ascii.eqb_neq. congruence.
Qed.

Lemma singleLine_cons (c : ascii) (s : string) :
  singleLine (String c s) = negb (Ascii.eqb c (ascii_of_nat 10)) && singleLine s.
Proof.
  unfold singleLine. cbn [includes]. rewrite prefix_nl.
  now rewrite negb_orb.
Qed.

Lemma singleLine_app (a b : string) :
  singleLine (a ++ b) = singleLine a && singleLine b.
Proof.
  induction a as [|c a IH]; simpl; [reflexivity|].
  now rewrite !singleLine_cons, IH, andb_assoc.
Qed.

(** The lines of a text: the first line runs up to the first line feed. *)
Lemma split_line (a rest : string) :
  singleLine a = true ->
  split (a ++ nl ++ rest) nl = a :: split rest nl.
Proof.
  unfold split. induction a as [|c a IH]; intros Ha.
  - change ("" ++ nl ++ rest) with (String (ascii_of_nat 10) rest).
    cbn [split_from]. rewrite prefix_nl, Ascii.eqb_refl. reflexivity.
  - rewrite singleLine_cons in Ha. apply andb_prop in Ha. destruct Ha as [Hc Ha].
    change (String c a ++ nl ++ rest) with (String c (a ++ nl ++ rest)).
    cbn [split_from]. rewrite prefix_nl.
    apply negb_true_iff in Hc. rewrite Hc, (IH Ha). reflexivity.
Qed.

(** [split] never returns an empty array, and a line feed starts a new
    field: the number of lines is one more than the number of line feeds. *)
Lemma split_nl_length (s : string) :
  List.length (split s nl) = S (countLineFeeds s).
Proof.
  unfold split. induction s as [|c s IH]; [reflexivity|].
  cbn [split_from countLineFeeds]. rewrite prefix_nl.
  destruct (Ascii.eqb c (ascii_of_nat 10)); simpl.
  - now rewrite IH.
  - destruct (split_from nl 0 s); simpl in *; [discriminate | assumption].
Qed.

Lemma occursIn_refl (s : string) : occursIn s s.
Proof. exists "", "". now rewrite append_empty_r. Qed.

Lemma occursIn_append_l (sub a b : string) : occursIn sub a -> occursIn sub (a ++ b).
Proof.
  intros [x [y ->]]. exists x, (y ++ b). now rewrite !append_assoc.
Qed.

Lemma occursIn_append_r (sub a b : string) : occursIn sub b -> occursIn sub (a ++ b).
Proof.
  intros [x [y ->]]. exists (a ++ x), y. now rewrite !append_assoc.
Qed.

Lemma occursIn_joinAll (sub : string) (pieces : list string) (piece : string) :
  In piece pieces -> occursIn sub piece -> occursIn sub (joinAll pieces).
Proof.
  induction pieces as [|p pieces IH]; simpl; [tauto|].
  intros [->|Hin] Hsub.
  - now apply occursIn_append_l.
  - apply occursIn_append_r. now apply IH.
Qed.

End StringFacts.

(** ** What each block of [createReport] appends *)

Module ComposerFacts.
Import JS Obj ObjFacts Composer Spec StringFacts GroupingFacts.

Lemma unlines_app (xs ys : list string) : unlines (xs ++ ys) = unlines xs ++ unlines ys.
Proof. unfold unlines. now rewrite map_app, joinAll_app. Qed.

Lemma unlines_cons (x : string) (xs : list string) :
  unlines (x :: xs) = x ++ nl ++ unlines xs.
Proof. unfold unlines. simpl. now rewrite append_assoc. Qed.

Lemma unlines_nil : unlines [] = "".
Proof. reflexivity. Qed.

Lemma fold_left_ext {A B : Type} (f g : A -> B -> A) (xs : list B) (a : A) :
  (forall a x, f a x = g a x) -> fold_left f xs a = fold_left g xs a.
Proof.
  intros H. revert a. induction xs as [|x xs IH]; intros a; simpl; [reflexivity|].
  now rewrite H, IH.
Qed.

(** Normal form of a text built with [++]: appends nested to the right,
    [unlines] of an explicit list unfolded. *)
Ltac text_normalize :=
  repeat (rewrite ?unlines_app, ?unlines_cons, ?unlines_nil,
                  ?append_assoc, ?append_empty_r;
          cbn [String.append List.app]).

Section Host.
Variable toLocaleDateString : string -> string.
Variable today : string.
Variable nativeText : string -> string.

Lemma joinAll_cons (x : string) (xs : list string) : joinAll (x :: xs) = x ++ joinAll xs.
Proof. reflexivity. Qed.

Lemma noteLines_text (notes : list Note) :
  joinAll (map (fun note => content note ++ nl ++ nl) notes) = unlines (noteLines notes).
Proof.
  induction notes as [|n notes IH]; [reflexivity|].
  cbn [map noteLines flat_map]. rewrite joinAll_cons, IH.
  fold (noteLines notes). text_normalize. reflexivity.
Qed.

Lemma entries_length {V : Type} (o : Obj.t V) :
  List.length (entries o) = List.length (keys o).
Proof.
  unfold entries.
  assert (H : forall ks, (forall k, In k ks -> In k (map fst o)) ->
    List.length (flat_map (fun k => match own o k with
                                    | Some v => [(k, v)]
                                    | None => []
                                    end) ks) = List.length ks).
  { induction ks as [|k ks IH]; intros Hks; [reflexivity|].
    cbn [flat_map]. rewrite length_app, IH by (intros; apply Hks; now right).
    destruct (own o k) eqn:E; [reflexivity|].
    apply own_None in E. exfalso. apply E, Hks. now left. }
  apply H. intros k Hk.
  apply (Permutation_in _ (Permutation_sym (keys_perm o))). exact Hk.
Qed.

Lemma executiveSummary_text visit photos notes (o : Obj.t (list Note)) report :
  executiveSummary visit photos notes o report =
  report ++ unlines (summaryLines visit (List.length photos) (List.length notes)
                                  (List.length (entries o))).
Proof.
  rewrite entries_length.
  unfold executiveSummary, summaryLines, summaryLine, countPhrase.
  text_normalize. reflexivity.
Qed.

Lemma categoryLines_text (groups : list (string * list Note)) report :
  fold_left
    (fun report '(category, categoryNotes) =>
       let report := report ++ "### " ++ heading nativeText category ++ nl ++ nl in
       fold_left (fun report note => report ++ content note ++ nl ++ nl)
                 categoryNotes report)
    groups report =
  report ++ unlines (flat_map (categoryLines nativeText) groups).
Proof.
  revert report. induction groups as [|[c ns] groups IH]; intros report.
  - cbn. now rewrite append_empty_r.
  - cbn [fold_left flat_map]. rewrite IH.
    rewrite (fold_left_append (fun note => content note ++ nl ++ nl)).
    rewrite noteLines_text. unfold categoryLines. cbn [fst snd].
    text_normalize. reflexivity.
Qed.

Lemma detailedObservations_text (o : Obj.t (list Note)) report :
  detailedObservations nativeText o report =
  report ++ unlines (observationLines nativeText (entries o)).
Proof.
  unfold detailedObservations. rewrite <- entries_length.
  destruct (entries o) as [|entry groups] eqn:E.
  - cbn. now rewrite append_empty_r.
  - cbn [List.length Nat.ltb Nat.leb]. rewrite categoryLines_text.
    unfold observationLines. text_normalize. reflexivity.
Qed.

Lemma captions_text (photos : list Photo) report :
  fold_left
    (fun report photo =>
       if truthy (caption photo) then report ++ "- " ++ caption photo ++ nl
       else report)
    photos report =
  report ++ unlines (map (fun photo => bulletLine (caption photo)) (captioned photos)).
Proof.
  revert report. induction photos as [|p photos IH]; intros report.
  - cbn. now rewrite append_empty_r.
  - cbn [fold_left captioned filter]. rewrite IH. fold (captioned photos).
    destruct (truthy (caption p)); [|reflexivity].
    cbn [map]. unfold bulletLine. text_normalize. reflexivity.
Qed.

Lemma visualDocumentation_text (photos : list Photo) report :
  visualDocumentation photos report = report ++ unlines (photoLines photos).
Proof.
  unfold visualDocumentation. destruct photos as [|p photos].
  - cbn. now rewrite append_empty_r.
  - cbn [List.length Nat.ltb Nat.leb]. rewrite captions_text.
    unfold photoLines, photoSummaryLine, countPhrase.
    text_normalize. reflexivity.
Qed.

Lemma keyTakeaways_text (notes : list Note) (o : Obj.t (list Note)) report :
  keyTakeaways notes o report =
  report ++ unlines (takeawayLines notes (keyPoints o)).
Proof.
  unfold keyTakeaways, takeawayLines. destruct notes as [|n notes].
  - cbn [List.length Nat.eqb]. text_normalize. reflexivity.
  - cbn [List.length Nat.eqb].
    rewrite (fold_left_append (fun point => "- " ++ point ++ nl)).
    assert (H : forall points,
      joinAll (map (fun point => "- " ++ point ++ nl) points)
      = unlines (map bulletLine points)).
    { induction points as [|pt points IH]; [reflexivity|].
      cbn [map]. rewrite joinAll_cons, IH. unfold bulletLine.
      text_normalize. reflexivity. }
    rewrite H. text_normalize. reflexivity.
Qed.

Lemma nextSteps_text report : nextSteps report = report ++ unlines nextStepLines.
Proof. unfold nextSteps, nextStepLines. text_normalize. reflexivity. Qed.

(** The report is the sequence of its logical units, each closed by one
    line feed. *)
Lemma createReport_text visit photos notes o :
  groupNotes notes = Ok o ->
  createReport toLocaleDateString today nativeText visit photos notes =
  Ok (unlines (documentLines toLocaleDateString today nativeText visit photos notes
                             (entries o) (keyPoints o))).
Proof.
  intros Hgroup. unfold createReport. rewrite Hgroup. cbn [bind]. f_equal.
  rewrite nextSteps_text, keyTakeaways_text, visualDocumentation_text,
          detailedObservations_text, executiveSummary_text.
  unfold documentLines, headerLines, footerLines, titleLine, dateLine, locationLine.
  destruct (truthy (location visit)); text_normalize; reflexivity.
Qed.

End Host.
End ComposerFacts.

(** ** Key points, and texts that stay on one line *)

Module LineFacts.
Import JS Obj ObjFacts Composer Spec StringFacts GroupingFacts ComposerFacts.

(** The seven guarded [push]es read the table from top to bottom. *)
Lemma keyPoints_table (o : Obj.t (list Note)) :
  keyPoints o = map snd (filter (fun row => has o (fst row)) keyPointTable).
Proof.
  unfold keyPoints, keyPointTable. cbn [filter fst].
  destruct (has o "academics"), (has o "campus"), (has o "facilities"),
           (has o "location"), (has o "housing"), (has o "financial"),
           (has o "social"); reflexivity.
Qed.

Lemma has_stableGrouping (notes : list Note) (c : string) :
  inherited c = false ->
  has (stableGrouping notes) c = existsb (fun note => category note =? c) notes.
Proof.
  intros Hinh. unfold has, get, stableGrouping. rewrite own_tabulate, Hinh.
  destruct (existsb (String.eqb c) (firstSeen (map category notes))) eqn:E.
  - apply existsb_eqb_In, firstSeen_In, in_map_iff in E.
    destruct E as [n [Hc Hn]]. symmetry. apply existsb_exists.
    exists n. split; [assumption | now apply String.eqb_eq].
  - symmetry. apply not_true_is_false. intros H. apply existsb_exists in H.
    destruct H as [n [Hn Hc]]. apply String.eqb_eq in Hc.
    apply existsb_eqb_notIn in E. apply E, firstSeen_In, in_map_iff.
    now exists n.
Qed.

Lemma keyPoints_expected (notes : list Note) :
  keyPoints (stableGrouping notes) = expectedKeyPoints notes.
Proof.
  rewrite keyPoints_table. unfold expectedKeyPoints, keyPointTable.
  cbn [filter fst]. rewrite !has_stableGrouping by reflexivity. reflexivity.
Qed.

Lemma singleLine_uint (u : Decimal.uint) : singleLine (NilEmpty.string_of_uint u) = true.
Proof.
  induction u; cbn [NilEmpty.string_of_uint]; [reflexivity | ..];
    rewrite singleLine_cons, IHu; reflexivity.
Qed.

Lemma singleLine_decimal (n : nat) : singleLine (decimal n) = true.
Proof.
  unfold decimal, NilZero.string_of_uint.
  destruct (Nat.to_uint n) eqn:E; try reflexivity; rewrite <- E; apply singleLine_uint.
Qed.

Lemma singleLine_plural (n : nat) : singleLine (plural n) = true.
Proof. unfold plural. now destruct (negb (n =? 1)%nat). Qed.

(** A category that reaches [heading] is an own key of the grouping, hence
    not an inherited name: the heading is its title or the tag itself. *)
Lemma heading_own nativeText (c : string) :
  inherited c = false ->
  heading nativeText c =
  match own categoryTitles c with Some title => title | None => c end.
Proof.
  intros Hinh. unfold heading, get. rewrite Hinh.
  unfold categoryTitles. cbn [own].
  repeat match goal with
         | |- context [String.eqb ?k c] => destruct (String.eqb k c); [reflexivity|]
         end.
  reflexivity.
Qed.

Lemma heading_singleLine nativeText (c : string) :
  inherited c = false -> singleLine c = true ->
  singleLine (heading nativeText c) = true.
Proof.
  intros Hinh Hc. rewrite (heading_own _ _ Hinh).
  unfold categoryTitles. cbn [own].
  repeat match goal with
         | |- context [String.eqb ?k c] => destruct (String.eqb k c); [reflexivity|]
         end.
  exact Hc.
Qed.

(** The lines of a text made of one-line units are those units, followed by
    the empty line after the last line feed. *)
Lemma split_unlines (units : list string) :
  forallb singleLine units = true ->
  split (unlines units) nl = (units ++ [""])%list.
Proof.
  induction units as [|u units IH]; intros H; [reflexivity|].
  cbn [forallb] in H. apply andb_prop in H. destruct H as [Hu Hus].
  rewrite unlines_cons, (split_line _ _ Hu), (IH Hus). reflexivity.
Qed.

Lemma occursIn_unlines (line : string) (lines : list string) :
  In line lines -> occursIn line (unlines lines).
Proof.
  intros Hin. unfold unlines.
  apply (occursIn_joinAll _ _ (line ++ nl)).
  - apply in_map_iff. now exists line.
  - apply occursIn_append_l, occursIn_refl.
Qed.

End LineFacts.

(** ** The renderer *)

Module RendererFacts.
Import JS Composer Renderer Spec StringFacts.

Lemma length_append (a b : string) :
  String.length (a ++ b) = String.length a + String.length b.
Proof. induction a as [|c a IH]; simpl; [reflexivity | now rewrite IH]. Qed.

Lemma substring_skip (a b : string) (m : nat) :
  String.substring (String.length a) m (a ++ b) = String.substring 0 m b.
Proof. induction a as [|c a IH]; simpl; [reflexivity | exact IH]. Qed.





End RendererFacts.

Import JS Composer Renderer Spec.
Import ObjFacts GroupingFacts StringFacts ComposerFacts LineFacts RendererFacts.



Lemma startsWith_bold_inv (line : string) :
  startsWith line "**" = true -> exists rest, line = "**" ++ rest.
Proof.
  unfold startsWith. intros H. apply String.prefix_correct in H.
  destruct line as [|c1 [|c2 rest]]; try discriminate H.
  cbn in H. injection H as -> ->. now exists rest.
Qed.

(** C10 (amended). The BoldParagraph test does not ask for two distinct
    delimiters: every line that starts and ends with the delimiter is a
    BoldParagraph holding [line.substring(2, line.length - 2)].  For the
    line of exactly two asterisks the end index 0 is below the start index 2,
    [substring] swaps them, and the text is the two asterisks themselves (not
    the empty string); for the line of three asterisks the indices 2 and 1 are
    swapped and the text is one asterisk. *)
Theorem classify_overlapping_delimiters :
  classify "**" = BoldParagraph "**" /\
  classify "***" = BoldParagraph "*" /\
  (forall line,
     startsWith line "**" && endsWith line "**" = true ->
     classify line =
     BoldParagraph (substring2 line 2 (Z.of_nat (String.length line) - 2))).
Proof.
  split; [reflexivity|]. split; [reflexivity|].
  intros line H. pose proof H as H'. apply andb_prop in H'. destruct H' as [Hs _].
  destruct (startsWith_bold_inv _ Hs) as [rest ->].
  unfold classify. rewrite H. reflexivity.
Qed.

Lemma classify_overlapping_delimiters_witness :
  classify "***" = BoldParagraph (substring2 "***" 2 (Z.of_nat (String.length "***") - 2)).
Proof.
  destruct classify_overlapping_delimiters as [_ [_ H]].
  apply (H "***"). reflexivity.
Defined.

(** Against C10 as the specification words it: for the line of two
    asterisks the BoldParagraph does not hold the empty string. *)
Lemma classify_two_asterisks_counterexample :
  classify "**" = BoldParagraph "**" /\ classify "**" <> BoldParagraph "".
Proof. split; [reflexivity | discriminate]. Qed.

(** C4. The renderer is total and keeps every line: each line of the text is
    mapped to one element by [classify] (whose last rule catches every line
    the others leave), so the element sequence is as long as the sequence of
    lines, which is one more than the number of line feeds; in particular for
    every document [createReport] returns. *)
Theorem render_total_line_preserving (text : string) :
  render text = map classify (split text nl) /\
  List.length (render text) = List.length (split text nl) /\
  List.length (render text) = S (countLineFeeds text) /\
  (forall i, nth_error (render text) i
             = option_map classify (nth_error (split text nl) i)) /\
  (forall toLocaleDateString today nativeText visit photos notes,
     createReport toLocaleDateString today nativeText visit photos notes = Ok text ->
     List.length (render text) = List.length (split text nl)).
Proof.
  assert (Hlen : List.length (render text) = List.length (split text nl))
    by apply length_map.
  repeat split.
  - exact Hlen.
  - rewrite Hlen. apply split_nl_length.
  - intros i. unfold render. apply nth_error_map.
  - intros. exact Hlen.
Qed.

Lemma render_total_line_preserving_witness :
  createReport Samples.longDate Samples.today Samples.nativeText
               Samples.visit Samples.photos Samples.notes = Ok Samples.report /\
  List.length (render Samples.report) = List.length (split Samples.report nl).
Proof.
  assert (H : createReport Samples.longDate Samples.today Samples.nativeText
                Samples.visit Samples.photos Samples.notes = Ok Samples.report)
    by reflexivity.
  split; [exact H|].
  destruct (render_total_line_preserving Samples.report) as [_ [_ [_ [_ Hdoc]]]].
  exact (Hdoc _ _ _ _ _ _ H).
Defined.

(** ** The composer *)

Lemma append_cancel_empty (a b : string) : a ++ b = a -> b = "".
Proof.
  intros H. apply (f_equal String.length) in H. rewrite length_append in H.
  destruct b; [reflexivity | simpl in H; lia].
Qed.

Lemma unlines_empty_iff (ls : list string) : unlines ls = "" <-> ls = [].
Proof.
  split; [|intros ->; reflexivity].
  destruct ls as [|l ls]; [reflexivity|]. rewrite unlines_cons.
  intros H. apply (f_equal String.length) in H.
  rewrite !length_append in H. simpl in H. lia.
Qed.




Lemma startsWith_bullet (text : string) : startsWith (bulletLine text) "- " = true.
Proof. unfold startsWith, bulletLine. cbn. apply prefix_empty. Qed.

Lemma bullets_filter {A : Type} (text : A -> string) (xs : list A) :
  filter (fun line => startsWith line "- ") (map (fun x => bulletLine (text x)) xs)
  = map (fun x => bulletLine (text x)) xs.
Proof.
  induction xs as [|x xs IH]; [reflexivity|].
  cbn [map filter]. now rewrite startsWith_bullet, IH.
Qed.

Lemma captions_singleLine (photos : list Photo) :
  forallb (fun photo => singleLine (caption photo)) photos = true ->
  forallb singleLine (map (fun photo => bulletLine (caption photo)) (captioned photos))
  = true.
Proof.
  induction photos as [|p photos IH]; [reflexivity|].
  cbn [forallb captioned filter]. intros H. apply andb_prop in H.
  destruct H as [Hp Hps]. fold (captioned photos).
  destruct (truthy (caption p)); [|now apply IH].
  cbn [map forallb]. unfold bulletLine at 1.
  rewrite singleLine_app, Hp, (IH Hps). reflexivity.
Qed.

Lemma photoSummaryLine_singleLine (n : nat) : singleLine (photoSummaryLine n) = true.
Proof.
  unfold photoSummaryLine, countPhrase.
  now rewrite !singleLine_app, singleLine_decimal, singleLine_plural.
Qed.

Lemma photoLines_singleLine (photos : list Photo) :
  forallb (fun photo => singleLine (caption photo)) photos = true ->
  forallb singleLine (photoLines photos) = true.
Proof.
  intros H. unfold photoLines. destruct photos as [|p photos]; [reflexivity|].
  rewrite forallb_app. cbn [forallb].
  rewrite photoSummaryLine_singleLine, forallb_app, (captions_singleLine _ H).
  reflexivity.
Qed.

(** C8. The block of the Visual Documentation section appends nothing when
    there is no photo and, when there is one, the heading, the count
    sentence and one bullet per photo with a non-empty caption, in input
    order; photos with an empty caption add nothing.  The block's text sits
    in the composed document between the observations and the takeaways.
    When no caption holds a line feed, the bullet lines of the section are
    exactly those bullets. *)
Theorem visual_documentation_bullets (photos : list Photo) :
  (forall report, visualDocumentation photos report = report <-> photos = []) /\
  (forall report,
     visualDocumentation photos report = report ++ unlines (photoLines photos)) /\
  (forall photo rest, photos = photo :: rest ->
     photoLines photos =
     ["## Visual Documentation"; "";
      ("I captured " ++ decimal (List.length photos) ++ " photo"
        ++ plural (List.length photos)
        ++ " during my visit, documenting various aspects of the campus including:")%string;
      ""]
     ++ map (fun photo => ("- " ++ caption photo)%string)
            (filter (fun photo => negb (caption photo =? "")) photos)
     ++ [""])%list /\
  (forall toLocaleDateString today nativeText visit notes o,
     groupNotes notes = Ok o ->
     createReport toLocaleDateString today nativeText visit photos notes =
     Ok (unlines
           ((headerLines toLocaleDateString visit
             ++ summaryLines visit (List.length photos) (List.length notes)
                             (List.length (Obj.entries o))
             ++ observationLines nativeText (Obj.entries o))
            ++ photoLines photos
            ++ (takeawayLines notes (keyPoints o) ++ nextStepLines
                ++ footerLines today)))%list) /\
  (forallb (fun photo => singleLine (caption photo)) photos = true ->
   filter (fun line => startsWith line "- ") (split (unlines (photoLines photos)) nl)
   = map (fun photo => "- " ++ caption photo)
         (filter (fun photo => negb (caption photo =? "")) photos)).
Proof.
  split; [|split; [|split; [|split]]].
  - intros report. rewrite visualDocumentation_text. split.
    + intros H. apply append_cancel_empty, unlines_empty_iff in H.
      destruct photos; [reflexivity | discriminate H].
    + intros ->. cbn. apply append_empty_r.
  - intros report. apply visualDocumentation_text.
  - intros p rest ->. unfold photoLines, photoSummaryLine, countPhrase.
    text_normalize. reflexivity.
  - intros fmt today nativeText visit notes o Ho.
    rewrite (createReport_text _ _ _ _ _ _ _ Ho). unfold documentLines.
    now rewrite <- !app_assoc.
  - intros H. rewrite (split_unlines _ (photoLines_singleLine _ H)).
    unfold photoLines. destruct photos as [|p photos]; [reflexivity|].
    rewrite !filter_app, bullets_filter.
    change (filter (fun line => startsWith line "- ")
                   ["## Visual Documentation"; "";
                    photoSummaryLine (List.length (p :: photos)); ""])
      with (@nil string).
    cbn [filter List.app]. change (startsWith "" "- ") with false. cbv iota.
    now rewrite !app_nil_r.
Qed.

Lemma visual_documentation_bullets_witness :
  filter (fun line => startsWith line "- ")
         (split (unlines (photoLines Samples.photos)) nl)
  = ["- Library"; "- Main gate"].
Proof.
  destruct (visual_documentation_bullets Samples.photos) as [_ [_ [_ [_ H]]]].
  rewrite H; reflexivity.
Defined.

(** ** The composed document *)

Lemma forallb_flat_map {A B : Type} (f : B -> bool) (g : A -> list B) (xs : list A) :
  forallb f (flat_map g xs) = forallb (fun x => forallb f (g x)) xs.
Proof.
  induction xs as [|x xs IH]; [reflexivity|].
  cbn [flat_map forallb]. now rewrite forallb_app, IH.
Qed.

Lemma stableGrouping_In (notes : list Note) (c : string) (group : list Note) :
  In (c, group) (stableGrouping notes) <->
  In c (map category notes) /\ group = notesOf c notes.
Proof.
  unfold stableGrouping. rewrite in_map_iff. split.
  - intros [c' [[= -> ->] Hin]]. split; [now apply firstSeen_In | reflexivity].
  - intros [Hin ->]. exists c. split; [reflexivity | now apply firstSeen_In].
Qed.

Lemma stableGrouping_NoDup (notes : list Note) : NoDup (map fst (stableGrouping notes)).
Proof. rewrite stableGrouping_keys. apply firstSeen_NoDup. Qed.

(** Every entry of a grouping that [groupNotes] returned carries a category
    of some note, none of them an inherited name, and the notes of that
    category. *)
Lemma entries_stableGrouping (notes : list Note) (c : string) (group : list Note) :
  In (c, group) (Obj.entries (stableGrouping notes)) <->
  In c (map category notes) /\ group = notesOf c notes.
Proof.
  rewrite (entries_In _ _ _ (stableGrouping_NoDup notes)).
  apply stableGrouping_In.
Qed.

Lemma expectedKeyPoints_singleLine (notes : list Note) :
  forallb singleLine (map bulletLine (expectedKeyPoints notes)) = true.
Proof.
  apply forallb_forall. intros line Hin.
  apply in_map_iff in Hin. destruct Hin as [point [<- Hin]].
  unfold expectedKeyPoints in Hin. apply in_map_iff in Hin.
  destruct Hin as [row [<- Hin]]. apply filter_In in Hin. destruct Hin as [Hin _].
  unfold keyPointTable in Hin. cbn [In] in Hin.
  repeat (destruct Hin as [<-|Hin]; [reflexivity|]). destruct Hin.
Qed.

Section Document.
Variable toLocaleDateString : string -> string.
Variable today : string.
Variable nativeText : string -> string.

Let compose := createReport toLocaleDateString today nativeText.
Let unitsOf := documentLines toLocaleDateString today nativeText.

(** [createReport] returns exactly when no category names a member of
    [Object.prototype]; the document is then the sequence of its units. *)
Lemma createReport_returns visit photos notes :
  compose visit photos notes =
  if forallb accepted notes
  then Ok (unlines (unitsOf visit photos notes
                            (Obj.entries (stableGrouping notes))
                            (expectedKeyPoints notes)))
  else Throw pushError.
Proof.
  unfold compose, unitsOf. pose proof (groupNotes_spec notes) as Hg.
  destruct (forallb accepted notes).
  - rewrite (createReport_text _ _ _ _ _ _ _ Hg). now rewrite keyPoints_expected.
  - unfold createReport. now rewrite Hg.
Qed.

Lemma createReport_Ok visit photos notes doc :
  compose visit photos notes = Ok doc ->
  forallb accepted notes = true /\
  doc = unlines (unitsOf visit photos notes
                         (Obj.entries (stableGrouping notes))
                         (expectedKeyPoints notes)).
Proof.
  rewrite createReport_returns. destruct (forallb accepted notes); [|discriminate].
  intros [= <-]. now split.
Qed.

Lemma content_in_units visit photos notes note :
  In note notes ->
  In (content note)
     (unitsOf visit photos notes (Obj.entries (stableGrouping notes))
              (expectedKeyPoints notes)).
Proof.
  intros Hin. unfold unitsOf, documentLines.
  apply in_or_app. right. apply in_or_app. right. apply in_or_app. left.
  assert (Hentry : In (category note, notesOf (category note) notes)
                      (Obj.entries (stableGrouping notes))).
  { apply entries_stableGrouping. split; [now apply in_map | reflexivity]. }
  unfold observationLines.
  destruct (Obj.entries (stableGrouping notes)) as [|e es] eqn:E; [destruct Hentry|].
  rewrite <- E in *. apply in_or_app. right.
  apply in_flat_map. exists (category note, notesOf (category note) notes).
  split; [exact Hentry|]. unfold categoryLines. cbn [fst snd].
  apply in_or_app. right. unfold noteLines. apply in_flat_map.
  exists note. split; [|now left]. now apply notesOf_In.
Qed.

(** Whenever [createReport] returns, the content of every note occurs in
    the document. *)
Lemma createReport_keeps_notes visit photos notes doc :
  compose visit photos notes = Ok doc ->
  forall note, In note notes -> occursIn (content note) doc.
Proof.
  intros Hdoc note Hin. apply createReport_Ok in Hdoc. destruct Hdoc as [_ ->].
  apply occursIn_unlines. now apply content_in_units.
Qed.

End Document.

Section Report.
Variable toLocaleDateString : string -> string.
Variable today : string.
Variable nativeText : string -> string.

Let compose := createReport toLocaleDateString today nativeText.
Let unitsOf := documentLines toLocaleDateString today nativeText.

Lemma headerLines_singleLine visit :
  singleLine (college_name visit) = true ->
  singleLine (toLocaleDateString (visit_date visit)) = true ->
  singleLine (location visit) = true ->
  forallb singleLine (headerLines toLocaleDateString visit) = true.
Proof.
  intros Hname Hdate Hloc.
  unfold headerLines, titleLine, dateLine, locationLine.
  destruct (truthy (location visit)); cbn [List.app forallb];
    rewrite !singleLine_app, ?Hname, ?Hdate, ?Hloc; reflexivity.
Qed.

Lemma summaryLines_singleLine visit photos notes categories :
  singleLine (college_name visit) = true ->
  forallb singleLine (summaryLines visit photos notes categories) = true.
Proof.
  intros Hname. unfold summaryLines, summaryLine, countPhrase. cbn [forallb].
  rewrite !singleLine_app, Hname, !singleLine_decimal, !singleLine_plural.
  reflexivity.
Qed.

Lemma noteLines_singleLine (group : list Note) :
  forallb (fun note => singleLine (content note)) group = true ->
  forallb singleLine (noteLines group) = true.
Proof.
  intros H. unfold noteLines. rewrite forallb_flat_map.
  rewrite forallb_forall in *. intros note Hin. cbn [forallb].
  now rewrite (H note Hin).
Qed.

Lemma observationLines_singleLine notes :
  forallb accepted notes = true ->
  forallb (fun note => singleLine (category note) && singleLine (content note)) notes
  = true ->
  forallb singleLine
          (observationLines nativeText (Obj.entries (stableGrouping notes))) = true.
Proof.
  intros Hacc Hnotes. unfold observationLines.
  destruct (Obj.entries (stableGrouping notes)) as [|e es] eqn:E; [reflexivity|].
  rewrite <- E. cbn [List.app forallb]. rewrite forallb_flat_map.
  apply forallb_forall. intros [c group] Hin.
  apply entries_stableGrouping in Hin. destruct Hin as [Hc ->].
  apply in_map_iff in Hc. destruct Hc as [n [<- Hn]].
  rewrite forallb_forall in Hacc, Hnotes.
  pose proof (Hacc n Hn) as Hinh. unfold accepted in Hinh.
  apply negb_true_iff in Hinh.
  pose proof (Hnotes n Hn) as Hsingle. apply andb_prop in Hsingle.
  unfold categoryLines. cbn [fst snd List.app forallb].
  rewrite singleLine_app, (heading_singleLine _ _ Hinh (proj1 Hsingle)).
  cbn [andb]. apply noteLines_singleLine.
  apply forallb_forall. intros m Hm. apply notesOf_In in Hm.
  specialize (Hnotes m (proj1 Hm)). now apply andb_prop in Hnotes.
Qed.

Lemma takeawayLines_singleLine notes :
  forallb singleLine (takeawayLines notes (expectedKeyPoints notes)) = true.
Proof.
  unfold takeawayLines. destruct notes as [|n notes]; [reflexivity|].
  cbn [List.app forallb]. rewrite forallb_app, expectedKeyPoints_singleLine.
  reflexivity.
Qed.

Lemma documentLines_singleLine visit photos notes :
  forallb accepted notes = true ->
  singleLine (college_name visit) = true ->
  singleLine (toLocaleDateString (visit_date visit)) = true ->
  singleLine (location visit) = true ->
  singleLine today = true ->
  forallb (fun note => singleLine (category note) && singleLine (content note)) notes
  = true ->
  forallb (fun photo => singleLine (caption photo)) photos = true ->
  forallb singleLine
          (unitsOf visit photos notes (Obj.entries (stableGrouping notes))
                   (expectedKeyPoints notes)) = true.
Proof.
  intros Hacc Hname Hdate Hloc Htoday Hnotes Hphotos.
  unfold unitsOf, documentLines. rewrite !forallb_app.
  rewrite (headerLines_singleLine _ Hname Hdate Hloc),
          (summaryLines_singleLine _ _ _ _ Hname),
          (observationLines_singleLine _ Hacc Hnotes),
          (photoLines_singleLine _ Hphotos), takeawayLines_singleLine.
  unfold footerLines. cbn [forallb]. rewrite !singleLine_app, Htoday. reflexivity.
Qed.

(** C3 (amended). When the college name, the formatted visit date, the
    location, the generation date, every note's category and content and
    every photo's caption are free of line feeds, every logical unit of the
    composed document (title, metadata lines, headings, note paragraphs,
    bullets, blank separators) is exactly one line of the text: the lines of
    the document are its units followed by the empty line after the last
    line feed, and the renderer yields one element per unit. *)
Theorem units_on_single_lines visit photos notes doc :
  compose visit photos notes = Ok doc ->
  singleLine (college_name visit) = true ->
  singleLine (toLocaleDateString (visit_date visit)) = true ->
  singleLine (location visit) = true ->
  singleLine today = true ->
  forallb (fun note => singleLine (category note) && singleLine (content note)) notes
  = true ->
  forallb (fun photo => singleLine (caption photo)) photos = true ->
  let units := unitsOf visit photos notes (Obj.entries (stableGrouping notes))
                       (expectedKeyPoints notes) in
  doc = unlines units /\
  split doc nl = (units ++ [""])%list /\
  render doc = (map classify units ++ [LineBreak])%list /\
  In (titleLine visit) (split doc nl) /\
  In (dateLine toLocaleDateString visit) (split doc nl) /\
  (forall note, In note notes -> In (content note) (split doc nl)) /\
  (forall photo, In photo photos -> caption photo <> "" ->
     In (bulletLine (caption photo)) (split doc nl)).
Proof.
  intros Hdoc Hname Hdate Hloc Htoday Hnotes Hphotos units.
  apply createReport_Ok in Hdoc. destruct Hdoc as [Hacc Hdoc].
  fold unitsOf in Hdoc. fold units in Hdoc.
  assert (Hsingle : forallb singleLine units = true)
    by now apply documentLines_singleLine.
  assert (Hlines : split doc nl = (units ++ [""])%list)
    by (rewrite Hdoc; now apply split_unlines).
  split; [exact Hdoc|]. split; [exact Hlines|]. split.
  { unfold render. rewrite Hlines, map_app. reflexivity. }
  rewrite Hlines. split; [|split; [|split]].
  - apply in_or_app. left. unfold units, unitsOf, documentLines, headerLines.
    now left.
  - apply in_or_app. left. unfold units, unitsOf, documentLines, headerLines.
    right. right. now left.
  - intros note Hin. apply in_or_app. left. now apply content_in_units.
  - intros photo Hin Hcap. apply in_or_app. left.
    unfold units, unitsOf, documentLines.
    do 3 (apply in_or_app; right). apply in_or_app. left.
    unfold photoLines. destruct photos as [|p ps]; [destruct Hin|].
    apply in_or_app. right. apply in_or_app. left.
    apply in_map_iff. exists photo. split; [reflexivity|].
    apply filter_In. split; [exact Hin|].
    unfold truthy. apply negb_true_iff. now apply String.eqb_neq.
Qed.

(** C1 (amended). For every input with at least one note on which
    [createReport] returns, the Key Takeaways section holds one bullet for
    each of the seven categories with a sentence in the table (academics,
    campus, facilities, location, housing, financial, social) that some note
    carries, each made of that category's fixed sentence, in the fixed order
    of the table, whatever the order in which the categories were first
    seen; no other category has a sentence. *)
Theorem key_takeaways_fixed_order notes (o : Obj.t (list Note)) :
  notes <> [] ->
  groupNotes notes = Ok o ->
  keyPoints o = expectedKeyPoints notes /\
  (forall report,
     keyTakeaways notes o report =
     report ++ unlines
       (["## Key Takeaways"; "";
         "Based on my observations and notes, here are the main points to consider:";
         ""]
        ++ map (fun point => ("- " ++ point)%string) (expectedKeyPoints notes)
        ++ [""])%list) /\
  (forall visit photos,
     compose visit photos notes =
     Ok (unlines ((headerLines toLocaleDateString visit
                   ++ summaryLines visit (List.length photos) (List.length notes)
                                   (List.length (Obj.entries o))
                   ++ observationLines nativeText (Obj.entries o)
                   ++ photoLines photos)
                  ++ takeawayLines notes (expectedKeyPoints notes)
                  ++ (nextStepLines ++ footerLines today))%list)).
Proof.
  intros Hne Hgroup. apply groupNotes_Ok in Hgroup. destruct Hgroup as [-> Hacc].
  split; [apply keyPoints_expected|]. split.
  - intros report. rewrite keyTakeaways_text, keyPoints_expected.
    unfold takeawayLines. destruct notes as [|n ns]; [contradiction|].
    reflexivity.
  - intros visit photos. unfold compose.
    rewrite createReport_returns, Hacc. unfold documentLines.
    now rewrite <- !app_assoc.
Qed.

(** C2 (amended). For every note sequence in which no category tag is an
    array index, the grouping that [createReport] builds is stable: one entry
    per category (so the notes of a category are contiguous), the categories
    in the order of their first occurrence, the notes of a category in input
    order, and the Detailed Observations block renders the entries in that
    order; for notes a, b, c with categories x, y, x the entries are x with
    a, c and then y with b. *)
Theorem grouping_stable notes (o : Obj.t (list Note)) :
  forallb (fun note => negb (Obj.isArrayIndex (category note))) notes = true ->
  groupNotes notes = Ok o ->
  Obj.entries o = stableGrouping notes /\
  NoDup (map fst (Obj.entries o)) /\
  (forall report,
     detailedObservations nativeText o report =
     report ++ unlines (observationLines nativeText (stableGrouping notes))) /\
  (forall visit photos,
     compose visit photos notes =
     Ok (unlines (unitsOf visit photos notes (stableGrouping notes)
                          (expectedKeyPoints notes)))) /\
  (forall a b c,
     notes = [a; b; c] -> category c = category a -> category b <> category a ->
     Obj.entries o = [(category a, [a; c]); (category b, [b])]).
Proof.
  intros Hplain Hgroup. apply groupNotes_Ok in Hgroup. destruct Hgroup as [-> Hacc].
  assert (Hentries : Obj.entries (stableGrouping notes) = stableGrouping notes).
  { apply entries_creation_order; [apply stableGrouping_NoDup|].
    rewrite stableGrouping_keys. apply Forall_forall. intros c Hc.
    apply firstSeen_In, in_map_iff in Hc. destruct Hc as [n [<- Hn]].
    rewrite forallb_forall in Hplain. specialize (Hplain n Hn).
    now apply negb_true_iff. }
  split; [|split; [|split; [|split]]].
  - exact Hentries.
  - rewrite Hentries. apply stableGrouping_NoDup.
  - intros report. rewrite detailedObservations_text. now rewrite Hentries.
  - intros visit photos. unfold compose, unitsOf.
    rewrite createReport_returns, Hacc. now rewrite Hentries.
  - intros a b c Hnotes Hca Hba. rewrite Hentries. rewrite Hnotes.
    unfold stableGrouping, notesOf. cbn [map firstSeen filter].
    rewrite Hca.
    assert (Hba' : (category b =? category a) = false) by now apply String.eqb_neq.
    assert (Hab' : (category a =? category b) = false)
      by (rewrite String.eqb_sym; exact Hba').
    repeat (rewrite ?String.eqb_refl, ?Hab', ?Hba'; cbn [negb filter map]).
    reflexivity.
Qed.

(** The eight tags of the taxonomy are neither array indices nor inherited
    names: on notes tagged from the taxonomy [createReport] returns and the
    grouping is the stable one. *)
Lemma taxonomy_tags_group_stably notes :
  (forall note, In note notes -> In (category note) taxonomy) ->
  groupNotes notes = Ok (stableGrouping notes) /\
  Obj.entries (stableGrouping notes) = stableGrouping notes.
Proof.
  intros Htax.
  assert (Hplain : forallb (fun note => plainTag (category note)) notes = true).
  { apply forallb_forall. intros n Hn. specialize (Htax n Hn).
    unfold taxonomy in Htax. cbn [In] in Htax.
    repeat (destruct Htax as [<-|Htax]; [reflexivity|]). destruct Htax. }
  assert (Hacc : forallb accepted notes = true).
  { apply forallb_forall. intros n Hn. rewrite forallb_forall in Hplain.
    specialize (Hplain n Hn). unfold plainTag in Hplain.
    apply andb_prop in Hplain. apply (proj2 Hplain). }
  split; [rewrite groupNotes_spec; now rewrite Hacc|].
  apply entries_creation_order; [apply stableGrouping_NoDup|].
  rewrite stableGrouping_keys. apply Forall_forall. intros c Hc.
  apply firstSeen_In, in_map_iff in Hc. destruct Hc as [n [<- Hn]].
  rewrite forallb_forall in Hplain. specialize (Hplain n Hn).
  unfold plainTag in Hplain. apply andb_prop in Hplain.
  now apply negb_true_iff, (proj1 Hplain).
Qed.

(** C5. Composing with no note and no photo returns a document: the title
    and metadata, the Executive Summary with three zero counts, the Key
    Takeaways heading followed by the fixed fallback sentence, the Next Steps
    and the footer.  The Detailed Observations and Visual Documentation
    blocks append nothing; when the visit's texts are free of line feeds, no
    line of the document is either of their headings. *)
Theorem compose_empty visit :
  compose visit [] [] =
  Ok (unlines (headerLines toLocaleDateString visit
               ++ summaryLines visit 0 0 0
               ++ ["## Key Takeaways"; ""; fallbackSentence; ""]
               ++ nextStepLines
               ++ footerLines today)%list) /\
  groupNotes [] = Ok Obj.empty /\
  (forall report, detailedObservations nativeText Obj.empty report = report) /\
  (forall report, visualDocumentation [] report = report) /\
  (forall report,
     keyTakeaways [] Obj.empty report =
     report ++ "## Key Takeaways" ++ nl ++ nl ++ fallbackSentence ++ nl ++ nl) /\
  (singleLine (college_name visit) = true ->
   singleLine (toLocaleDateString (visit_date visit)) = true ->
   singleLine (location visit) = true ->
   singleLine today = true ->
   forall doc, compose visit [] [] = Ok doc ->
     split doc nl =
       (headerLines toLocaleDateString visit
        ++ summaryLines visit 0 0 0
        ++ ["## Key Takeaways"; ""; fallbackSentence; ""]
        ++ nextStepLines
        ++ footerLines today ++ [""])%list /\
     ~ In "## Detailed Observations" (split doc nl) /\
     ~ In "## Visual Documentation" (split doc nl)).
Proof.
  assert (Hdoc : compose visit [] [] =
    Ok (unlines (unitsOf visit [] [] [] []))).
  { unfold compose, unitsOf.
    now rewrite (createReport_text _ _ _ visit [] [] Obj.empty eq_refl). }
  split; [exact Hdoc|]. split; [reflexivity|]. split; [reflexivity|].
  split; [reflexivity|]. split.
  - intros report. unfold keyTakeaways. cbn [List.length Nat.eqb].
    text_normalize. reflexivity.
  - intros Hname Hdate Hloc Htoday doc Hdoc'.
    rewrite Hdoc in Hdoc'. injection Hdoc' as <-.
    assert (Hlines : split (unlines (unitsOf visit [] [] [] [])) nl
                     = (unitsOf visit [] [] [] [] ++ [""])%list).
    { apply split_unlines.
      apply (documentLines_singleLine visit [] [] eq_refl Hname Hdate Hloc Htoday
               eq_refl eq_refl). }
    rewrite Hlines. unfold unitsOf, documentLines.
    split; [now rewrite <- !app_assoc|].
    unfold headerLines, summaryLines, observationLines, photoLines, takeawayLines,
      nextStepLines, footerLines, titleLine, dateLine, locationLine, summaryLine.
    split; destruct (truthy (location visit)); cbn [List.app In]; intros H;
      repeat (destruct H as [H|H]; [cbn in H; discriminate H|]); exact H.
Qed.

(** C9. A note whose category names a member of [Object.prototype] (such as
    constructor) finds that member where its group is looked up; the member
    is truthy, so no array is created, and it has no [push]: [createReport]
    throws and no document holds the note.  It throws exactly when some
    category is such a name; on every other input it returns a document in
    which the content of every note occurs. *)
Theorem compose_throws_on_inherited_category visit photos notes :
  compose visit photos [Samples.note "constructor" "Great campus"]
  = Throw pushError /\
  (forallb accepted notes = false ->
   compose visit photos notes = Throw pushError) /\
  (forallb accepted notes = true ->
   exists doc, compose visit photos notes = Ok doc /\
               forall note, In note notes -> occursIn (content note) doc).
Proof.
  split; [reflexivity|]. split.
  - intros Hacc. unfold compose. now rewrite createReport_returns, Hacc.
  - intros Hacc. unfold compose. rewrite createReport_returns, Hacc.
    eexists. split; [reflexivity|]. intros note Hin.
    apply occursIn_unlines. now apply content_in_units.
Qed.

End Report.

(** ** Concrete instances *)

Lemma key_takeaways_fixed_order_witness :
  Samples.notes <> [] /\
  groupNotes Samples.notes = Ok (stableGrouping Samples.notes) /\
  keyPoints (stableGrouping Samples.notes) =
  ["Academic programs and educational opportunities were evaluated";
   "Campus culture and student life were observed"].
Proof.
  assert (Hne : Samples.notes <> []) by discriminate.
  assert (Hg : groupNotes Samples.notes = Ok (stableGrouping Samples.notes))
    by reflexivity.
  split; [exact Hne|]. split; [exact Hg|].
  destruct (key_takeaways_fixed_order Samples.longDate Samples.today
              Samples.nativeText Samples.notes _ Hne Hg) as [H _].
  rewrite H. reflexivity.
Defined.

(** Against C1 as the specification words it: with a campus note followed
    by an academics note the grouping order is campus, academics, yet the
    bullets are the academics sentence and then the campus sentence; a note
    of the general category adds a category to the grouping and no bullet.
    So no per-category template maps the grouping order to the bullets, even
    among the seven categories of the table. *)
Lemma key_takeaways_order_counterexample :
  let notes := [Samples.note "campus" "Lively quad";
                Samples.note "academics" "Strong physics"] in
  groupNotes notes = Ok (stableGrouping notes) /\
  map fst (Obj.entries (stableGrouping notes)) = ["campus"; "academics"] /\
  keyPoints (stableGrouping notes) =
    ["Academic programs and educational opportunities were evaluated";
     "Campus culture and student life were observed"] /\
  groupNotes [Samples.note "general" "Friendly guide"]
    = Ok (stableGrouping [Samples.note "general" "Friendly guide"]) /\
  keyPoints (stableGrouping [Samples.note "general" "Friendly guide"]) = [] /\
  ~ (exists template : string -> string,
       forall notes o,
         notes <> [] ->
         (forall note, In note notes -> In (category note) (map fst keyPointTable)) ->
         groupNotes notes = Ok o ->
         keyPoints o = map template (map fst (Obj.entries o))) /\
  ~ (exists template : string -> string,
       forall notes o,
         notes <> [] ->
         groupNotes notes = Ok o ->
         keyPoints o = map template (map fst (Obj.entries o))).
Proof.
  cbv zeta. repeat split; try reflexivity.
  - intros [template H].
    pose proof (H [Samples.note "academics" "a"] _ ltac:(discriminate)
                  ltac:(intros n [<-|[]]; cbn; tauto) eq_refl) as Ha.
    pose proof (H [Samples.note "campus" "c"] _ ltac:(discriminate)
                  ltac:(intros n [<-|[]]; cbn; tauto) eq_refl) as Hc.
    pose proof (H [Samples.note "campus" "c"; Samples.note "academics" "a"] _
                  ltac:(discriminate)
                  ltac:(intros n [<-|[<-|[]]]; cbn; tauto) eq_refl) as Hca.
    cbn in Ha, Hc, Hca. congruence.
  - intros [template H].
    pose proof (H [Samples.note "general" "g"] _ ltac:(discriminate) eq_refl) as Hg.
    cbn in Hg. discriminate Hg.
Qed.

Lemma grouping_stable_witness :
  let notes := [Samples.note "campus" "A"; Samples.note "academics" "B";
                Samples.note "campus" "C"] in
  forallb (fun note => negb (Obj.isArrayIndex (category note))) notes = true /\
  groupNotes notes = Ok (stableGrouping notes) /\
  Obj.entries (stableGrouping notes) =
  [("campus", [Samples.note "campus" "A"; Samples.note "campus" "C"]);
   ("academics", [Samples.note "academics" "B"])].
Proof.
  cbv zeta. split; [reflexivity|]. split; [reflexivity|].
  destruct (grouping_stable Samples.longDate Samples.today Samples.nativeText
              [Samples.note "campus" "A"; Samples.note "academics" "B";
               Samples.note "campus" "C"] _ eq_refl eq_refl) as [_ [_ [_ [_ H]]]].
  apply (H _ _ _ eq_refl); [reflexivity | discriminate].
Defined.

(** Against C2 as the specification words it, on category tags that are
    array indices: [Object.entries] lists such keys first, in ascending
    numeric order.  Notes of categories 2, 1, 2 are rendered with category 1
    first, although category 2 was seen first. *)
Lemma grouping_order_counterexample :
  let notes := [Samples.note "2" "A"; Samples.note "1" "B"; Samples.note "2" "C"] in
  groupNotes notes = Ok (stableGrouping notes) /\
  firstSeen (map category notes) = ["2"; "1"] /\
  Obj.entries (stableGrouping notes) =
    [("1", [Samples.note "1" "B"]);
     ("2", [Samples.note "2" "A"; Samples.note "2" "C"])] /\
  ~ (forall notes o,
       groupNotes notes = Ok o ->
       map fst (Obj.entries o) = firstSeen (map category notes)).
Proof.
  cbv zeta. repeat split; try reflexivity.
  intros H.
  specialize (H [Samples.note "2" "A"; Samples.note "1" "B"; Samples.note "2" "C"]
                _ eq_refl).
  discriminate H.
Qed.

Lemma units_on_single_lines_witness :
  createReport Samples.longDate Samples.today Samples.nativeText
               Samples.visit Samples.photos Samples.notes = Ok Samples.report /\
  forallb (fun note => singleLine (category note) && singleLine (content note))
          Samples.notes = true /\
  forallb (fun photo => singleLine (caption photo)) Samples.photos = true /\
  split Samples.report nl =
    (documentLines Samples.longDate Samples.today Samples.nativeText
       Samples.visit Samples.photos Samples.notes
       (Obj.entries (stableGrouping Samples.notes))
       (expectedKeyPoints Samples.notes) ++ [""])%list /\
  In "Strong physics" (split Samples.report nl).
Proof.
  assert (H : createReport Samples.longDate Samples.today Samples.nativeText
                Samples.visit Samples.photos Samples.notes = Ok Samples.report)
    by reflexivity.
  split; [exact H|]. split; [reflexivity|]. split; [reflexivity|].
  destruct (units_on_single_lines _ _ _ _ _ _ _ H eq_refl eq_refl eq_refl eq_refl
              eq_refl eq_refl) as [_ [Hlines [_ [_ [_ [Hnotes _]]]]]].
  split.
  - exact Hlines.
  - apply (Hnotes (Samples.note "academics" "Strong physics")).
    right. left. reflexivity.
Defined.

(** Against C3 as the specification words it, on a note whose content
    holds a line feed (the note editor is a multi-line text area): the
    paragraph is spread over two lines of the document, none of which is the
    content, and the renderer yields two elements for it. *)
Lemma multiline_note_counterexample :
  let twoLines := "first" ++ nl ++ "second" in
  exists doc,
    createReport Samples.longDate Samples.today Samples.nativeText
                 Samples.visit [] [Samples.note "general" twoLines] = Ok doc /\
    ~ In twoLines (split doc nl) /\
    In "first" (split doc nl) /\ In "second" (split doc nl) /\
    In (PlainParagraph "first") (render doc) /\
    In (PlainParagraph "second") (render doc) /\
    ~ (forall toLocaleDateString today nativeText visit photos notes text,
         createReport toLocaleDateString today nativeText visit photos notes
         = Ok text ->
         forall note, In note notes -> In (content note) (split text nl)).
Proof.
  cbv zeta.
  assert (Hnot : forall doc,
            createReport Samples.longDate Samples.today Samples.nativeText
              Samples.visit [] [Samples.note "general" ("first" ++ nl ++ "second")]
            = Ok doc ->
            ~ In ("first" ++ nl ++ "second") (split doc nl)).
  { intros doc [= <-]. apply existsb_eqb_notIn. vm_compute. reflexivity. }
  set (input := createReport Samples.longDate Samples.today Samples.nativeText
                  Samples.visit [] [Samples.note "general" ("first" ++ nl ++ "second")]) in *.
  set (doc := match input with Ok text => text | Throw _ => "" end).
  assert (E : input = Ok doc) by (vm_compute; reflexivity).
  exists doc. split; [exact E|]. split; [exact (Hnot doc E)|].
  split; [vm_compute; tauto|]. split; [vm_compute; tauto|].
  split; [vm_compute; tauto|]. split; [vm_compute; tauto|].
  intros H. apply (Hnot doc E).
  apply (H _ _ _ _ _ _ _ E (Samples.note "general" ("first" ++ nl ++ "second"))).
  now left.
Qed.

Lemma compose_throws_on_inherited_category_witness :
  forallb accepted [Samples.note "toString" "Great campus"] = false /\
  createReport Samples.longDate Samples.today Samples.nativeText Samples.visit
               Samples.photos [Samples.note "toString" "Great campus"]
  = Throw pushError /\
  forallb accepted Samples.notes = true /\
  exists doc,
    createReport Samples.longDate Samples.today Samples.nativeText Samples.visit
                 Samples.photos Samples.notes = Ok doc /\
    occursIn "Many clubs" doc.
Proof.
  split; [reflexivity|]. split.
  - apply (compose_throws_on_inherited_category Samples.longDate Samples.today
             Samples.nativeText Samples.visit Samples.photos
             [Samples.note "toString" "Great campus"]).
    reflexivity.
  - split; [reflexivity|].
    destruct (compose_throws_on_inherited_category Samples.longDate Samples.today
                Samples.nativeText Samples.visit Samples.photos Samples.notes)
      as [_ [_ H]].
    destruct (H eq_refl) as [doc [Hdoc Hnotes]].
    exists doc. split; [exact Hdoc|].
    apply (Hnotes (Samples.note "campus" "Many clubs")).
    right. right. left. reflexivity.
Defined.

Lemma compose_empty_witness :
  singleLine (college_name Samples.visit) = true /\
  singleLine (location Samples.visit) = true /\
  exists doc,
    createReport Samples.longDate Samples.today Samples.nativeText
                 Samples.visit [] [] = Ok doc /\
    ~ In "## Detailed Observations" (split doc nl) /\
    ~ In "## Visual Documentation" (split doc nl) /\
    In fallbackSentence (split doc nl).
Proof.
  split; [reflexivity|]. split; [reflexivity|].
  destruct (compose_empty Samples.longDate Samples.today Samples.nativeText
              Samples.visit) as [Hdoc [_ [_ [_ [_ H]]]]].
  eexists. split; [exact Hdoc|].
  destruct (H eq_refl eq_refl eq_refl eq_refl _ Hdoc) as [Hlines [Hobs Hvis]].
  split; [exact Hobs|]. split; [exact Hvis|].
  rewrite Hlines. cbn. tauto.
Defined.

(** * Further properties *)

Import Reference.

(** ** The renderer, line by line *)

Lemma split_nl_nonempty (s : string) : split s nl <> [].
Proof.
  intros H. apply (f_equal (@List.length string)) in H.
  rewrite split_nl_length in H. discriminate H.
Qed.

Lemma split_nl_app (a b : string) :
  split (a ++ nl ++ b) nl = (split a nl ++ split b nl)%list.
Proof.
  induction a as [|c a IH].
  - change ("" ++ nl ++ b) with (String (ascii_of_nat 10) b).
    unfold split. cbn [split_from]. rewrite prefix_nl, Ascii.eqb_refl. reflexivity.
  - change (String c a ++ nl ++ b) with (String c (a ++ nl ++ b)).
    unfold split in *. cbn [split_from]. rewrite !prefix_nl.
    destruct (Ascii.eqb c (ascii_of_nat 10)).
    + cbn [String.length nl Nat.sub]. rewrite IH. reflexivity.
    + rewrite IH. pose proof (split_nl_nonempty a) as Hne. unfold split in Hne.
      destruct (split_from nl 0 a) as [|f fs]; [contradiction | reflexivity].
Qed.

(** X1. The renderer is local to lines: the elements of two texts joined by
    a line feed are the elements of the first followed by those of the
    second; no line changes how another is classified. *)
Theorem render_line_local (a b : string) :
  render (a ++ nl ++ b) = (render a ++ render b)%list.
Proof. unfold render. now rewrite split_nl_app, map_app. Qed.

Lemma substring_all (a : string) : String.substring 0 (String.length a) a = a.
Proof. induction a as [|c a IH]; simpl; [reflexivity | now rewrite IH]. Qed.

(** [s.substring(n)] after a prefix of [n] code units is the rest. *)
Lemma substring1_after (p text : string) :
  substring1 (p ++ text) (Z.of_nat (String.length p)) = text.
Proof.
  unfold substring1, substring2, clamp. rewrite !Nat2Z.id, length_append.
  rewrite (Nat.min_l (String.length p)) by lia.
  rewrite Nat.min_id.
  rewrite (Nat.min_l (String.length p)) by lia.
  rewrite (Nat.max_r (String.length p)) by lia.
  replace (String.length p + String.length text - String.length p)
    with (String.length text) by lia.
  rewrite substring_skip. apply substring_all.
Qed.

(** Decides the comparisons of concrete characters left by [String.prefix]. *)
Ltac decide_chars :=
  repeat match goal with
         | |- context [ascii_dec ?a ?b] =>
             let d := eval vm_compute in (if ascii_dec a b then true else false) in
             match d with
             | true => destruct (ascii_dec a b) as [_|N]; [|exfalso; apply N; reflexivity]
             | false => destruct (ascii_dec a b) as [E|_]; [discriminate E|]
             end
         end.

(** X2. A line that starts with a heading marker is a heading holding the
    rest of the line, whatever the rest is: the three heading rules come
    before the bold, list and rule tests, so a heading text with bold
    delimiters or dashes is still a heading. *)
Theorem headings_take_the_rest (text : string) :
  classify ("# " ++ text) = Heading1 text /\
  classify ("## " ++ text) = Heading2 text /\
  classify ("### " ++ text) = Heading3 text.
Proof.
  unfold classify, startsWith. cbn [String.append String.prefix].
  decide_chars. rewrite !prefix_empty.
  split; [|split].
  - f_equal. apply (substring1_after "# " text).
  - f_equal. apply (substring1_after "## " text).
  - f_equal. apply (substring1_after "### " text).
Qed.

(** X3. A list line is a ListItem holding the text after the marker only
    when that text has no bold delimiter; with one, the bold rule wins and the
    line is a MixedParagraph whose first run still starts with the list
    marker. *)
Theorem list_item_unless_bold (text : string) :
  classify ("- " ++ text) =
    (if includes text "**"
     then MixedParagraph (runs (split ("- " ++ text) "**"))
     else ListItem text) /\
  split ("- " ++ text) "**" =
    match split text "**" with
    | first :: rest => ("- " ++ first) :: rest
    | [] => ["- "]
    end.
Proof.
  split.
  - unfold classify, startsWith, endsWith.
    cbn [String.append String.prefix includes andb orb].
    decide_chars. cbn [andb orb]. rewrite prefix_empty.
    destruct (includes text "**"); [reflexivity|].
    f_equal. apply (substring1_after "- " text).
  - unfold split. cbn [String.append split_from String.prefix].
    decide_chars. destruct (split_from "**" 0 text); reflexivity.
Qed.

Lemma trimEnd_nonempty (c : ascii) (s : string) :
  isWhiteSpace c = false -> trimEnd (String c s) <> "".
Proof.
  intros Hc. cbn [trimEnd]. destruct (trimEnd s); [rewrite Hc|]; discriminate.
Qed.

Lemma trim_empty_blank (s : string) : trim s = "" <-> blank s = true.
Proof.
  unfold trim, blank. induction s as [|c s IH]; cbn [trimStart list_ascii_of_string forallb].
  - tauto.
  - destruct (isWhiteSpace c) eqn:Hc; cbn [andb].
    + exact IH.
    + split; [|discriminate]. intros H. exfalso. exact (trimEnd_nonempty c s Hc H).
Qed.

Lemma blank_classify (s : string) : blank s = true -> classify s = LineBreak.
Proof.
  intros Hb. pose proof (proj2 (trim_empty_blank s) Hb) as Htrim.
  assert (Hinc : includes s "**" = false).
  { clear Htrim. unfold blank in Hb. induction s as [|c s IH]; [reflexivity|].
    cbn [list_ascii_of_string forallb] in Hb. apply andb_prop in Hb.
    destruct Hb as [Hc Hs]. cbn [includes String.prefix].
    destruct (ascii_dec "*" c) as [<-|_]; [discriminate Hc|]. now apply IH. }
  unfold classify, startsWith, endsWith. rewrite Hinc, Htrim.
  destruct s as [|c s]; [reflexivity|].
  unfold blank in Hb. cbn [list_ascii_of_string forallb] in Hb.
  apply andb_prop in Hb. destruct Hb as [Hc _].
  cbn [String.prefix String.eqb].
  destruct (ascii_dec "#" c) as [<-|_]; [discriminate Hc|].
  destruct (ascii_dec "*" c) as [<-|_]; [discriminate Hc|].
  destruct (ascii_dec "-" c) as [<-|_]; [discriminate Hc|].
  cbn [andb]. destruct (Ascii.eqb_spec c "-") as [->|_]; [discriminate Hc|].
  reflexivity.
Qed.

(** X4. A Rule comes from the line of exactly three dashes and from no other
    line, and a LineBreak from exactly the lines that [trim] empties (the
    empty line and the lines of white space only). *)
Theorem rule_and_line_break (line : string) :
  (classify line = Rule <-> line = "---") /\
  (classify line = LineBreak <-> trim line = "").
Proof.
  split; split.
  - unfold classify.
    repeat match goal with
           | |- context [if ?b then _ else _] => destruct b eqn:?; try discriminate
           end.
    intros _. now apply String.eqb_eq.
  - intros ->. reflexivity.
  - unfold classify.
    repeat match goal with
           | |- context [if ?b then _ else _] => destruct b eqn:?; try discriminate
           end.
    intros _. now apply String.eqb_eq.
  - intros H. apply blank_classify. now apply trim_empty_blank.
Qed.

(** ** From the composer to the renderer *)

Lemma noStar_cons (c : ascii) (s : string) :
  noStar (String c s) = negb (Ascii.eqb c "*") && noStar s.
Proof. reflexivity. Qed.

Lemma noStar_split (s : string) : noStar s = true -> split s "**" = [s].
Proof.
  unfold split. induction s as [|c s IH]; intros H; [reflexivity|].
  rewrite noStar_cons in H. apply andb_prop in H. destruct H as [Hc Hs].
  cbn [split_from String.prefix].
  destruct (ascii_dec "*" c) as [<-|_]; [discriminate Hc|].
  now rewrite (IH Hs).
Qed.

Lemma noStar_includes (s : string) : noStar s = true -> includes (s ++ "*") "**" = false.
Proof.
  induction s as [|c s IH]; intros H; [reflexivity|].
  rewrite noStar_cons in H. apply andb_prop in H. destruct H as [Hc Hs].
  cbn [String.append includes String.prefix].
  destruct (ascii_dec "*" c) as [<-|_]; [discriminate Hc|].
  now apply IH.
Qed.

(** A text that ends with the bold delimiter ends with an asterisk. *)
Lemma endsWith_last (s : string) :
  endsWith s "**" = true ->
  List.last (list_ascii_of_string s) " "%char = "*"%char.
Proof.
  unfold endsWith. change (String.length "**") with 2.
  induction s as [|d s IH]; [discriminate|].
  intros H. apply andb_prop in H. destruct H as [Hlen Hsub].
  apply Nat.leb_le in Hlen. apply String.eqb_eq in Hsub.
  cbn [String.length] in *. cbn [list_ascii_of_string].
  destruct s as [|e s]; [cbn in Hlen; lia|].
  destruct s as [|f s].
  - cbn in Hsub. injection Hsub as -> ->. reflexivity.
  - change (List.last (d :: list_ascii_of_string (String e (String f s))) " "%char)
      with (List.last (list_ascii_of_string (String e (String f s))) " "%char).
    apply IH. cbn [String.length] in *.
    replace (S (S (S (String.length s))) - 2) with (S (String.length s)) in Hsub by lia.
    change (String.substring (String.length s) 2 (String e (String f s)) = "**") in Hsub.
    replace (S (S (String.length s)) - 2) with (String.length s) by lia.
    rewrite Hsub. reflexivity.
Qed.

Lemma last_noStar (p s : string) :
  noStar s = true ->
  List.last (list_ascii_of_string (p ++ " " ++ s)) " "%char <> "*"%char.
Proof.
  intros Hs.
  assert (Hchars : list_ascii_of_string (p ++ " " ++ s)
                   = (list_ascii_of_string p ++ " "%char :: list_ascii_of_string s)%list).
  { induction p as [|c p IH]; [reflexivity|].
    change (String c p ++ " " ++ s) with (String c (p ++ " " ++ s)).
    cbn [list_ascii_of_string List.app]. now f_equal. }
  rewrite Hchars. clear Hchars.
  assert (Hlast : forall (l : list ascii) (c : ascii),
            c <> "*"%char ->
            forallb (fun c => negb (Ascii.eqb c "*")) l = true ->
            List.last (c :: l) " "%char <> "*"%char).
  { induction l as [|x l IH]; intros c Hc Hl; [exact Hc|].
    cbn [forallb] in Hl. apply andb_prop in Hl. destruct Hl as [Hx Hl].
    change (List.last (c :: x :: l) " "%char) with (List.last (x :: l) " "%char).
    apply IH; [|exact Hl]. apply negb_true_iff, Ascii.eqb_neq in Hx. exact Hx. }
  induction (list_ascii_of_string p) as [|x l IH].
  - apply Hlast; [discriminate | exact Hs].
  - cbn [List.app]. destruct (l ++ " "%char :: list_ascii_of_string s)%list eqn:E.
    + destruct l; discriminate E.
    + exact IH.
Qed.

(** A metadata line: a bold label, a space, a text without asterisk. *)
Lemma classify_labelled (text : string) :
  noStar text = true ->
  classify ("**Visit Date:** " ++ text)
  = MixedParagraph [Span ""; Strong "Visit Date:"; Span (" " ++ text)] /\
  classify ("**Location:** " ++ text)
  = MixedParagraph [Span ""; Strong "Location:"; Span (" " ++ text)].
Proof.
  intros Hs.
  assert (He1 : endsWith ("**Visit Date:** " ++ text) "**" = false).
  { apply not_true_is_false. intros H. apply endsWith_last in H.
    exact (last_noStar "**Visit Date:**" text Hs H). }
  assert (He2 : endsWith ("**Location:** " ++ text) "**" = false).
  { apply not_true_is_false. intros H. apply endsWith_last in H.
    exact (last_noStar "**Location:**" text Hs H). }
  unfold classify. rewrite He1, He2. unfold startsWith, split.
  cbn [String.append String.prefix includes split_from String.length Nat.sub andb orb].
  decide_chars.
  cbn [String.append String.prefix includes split_from String.length Nat.sub andb orb].
  rewrite ?prefix_empty. cbn [andb orb].
  pose proof (noStar_split text Hs) as Hsplit. unfold split in Hsplit.
  rewrite Hsplit. split; reflexivity.
Qed.

(** X5. The metadata lines written by the composer come back as a bold label
    followed by the plain value: for a formatted date and a location without
    asterisk, the date line and the location line are MixedParagraphs with an
    empty first run, the label in bold and the value after a space. *)
Theorem metadata_lines_render_labelled
  (toLocaleDateString : string -> string) (visit : Visit) :
  noStar (toLocaleDateString (visit_date visit)) = true ->
  noStar (location visit) = true ->
  classify (dateLine toLocaleDateString visit)
  = MixedParagraph [Span ""; Strong "Visit Date:";
                    Span (" " ++ toLocaleDateString (visit_date visit))] /\
  classify (locationLine visit)
  = MixedParagraph [Span ""; Strong "Location:"; Span (" " ++ location visit)].
Proof.
  intros Hdate Hloc. unfold dateLine, locationLine. split.
  - apply (proj1 (classify_labelled _ Hdate)).
  - apply (proj2 (classify_labelled _ Hloc)).
Qed.

Lemma metadata_lines_render_labelled_witness :
  classify (dateLine Samples.longDate Samples.visit)
  = MixedParagraph [Span ""; Strong "Visit Date:"; Span " March 1, 2025"] /\
  classify (locationLine Samples.visit)
  = MixedParagraph [Span ""; Strong "Location:"; Span " Springfield"].
Proof.
  exact (metadata_lines_render_labelled Samples.longDate Samples.visit eq_refl eq_refl).
Defined.

(** X6. The footer is written between single asterisks, which the renderer
    does not interpret: for a generation date without asterisk the footer
    line is a PlainParagraph holding the line as it is, asterisks included. *)
Theorem footer_renders_verbatim (today : string) :
  noStar today = true ->
  classify ("*Report generated on " ++ today ++ "*")
  = PlainParagraph ("*Report generated on " ++ today ++ "*").
Proof.
  intros Hs. unfold classify, startsWith.
  assert (Htrim : (trim ("*Report generated on " ++ today ++ "*") =? "") = false).
  { apply String.eqb_neq. unfold trim. cbn [String.append trimStart].
    change (isWhiteSpace "*") with false. cbv iota.
    now apply trimEnd_nonempty. }
  rewrite Htrim.
  cbn [String.append String.prefix includes andb orb String.eqb].
  decide_chars.
  cbn [String.append String.prefix includes andb orb String.eqb].
  rewrite (noStar_includes today Hs).
  change (Ascii.eqb "*" "-") with false. cbv iota. reflexivity.
Qed.

Lemma footer_renders_verbatim_witness :
  classify ("*Report generated on " ++ Samples.today ++ "*")
  = PlainParagraph "*Report generated on March 2, 2025*".
Proof. exact (footer_renders_verbatim Samples.today eq_refl). Defined.

Lemma classify_heading3 (text : string) : classify ("### " ++ text) = Heading3 text.
Proof.
  unfold classify, startsWith. cbn [String.append String.prefix].
  decide_chars. rewrite !prefix_empty. f_equal. apply (substring1_after "### " text).
Qed.

Lemma classify_title (text : string) :
  classify ("# College Visit Report: " ++ text)
  = Heading1 ("College Visit Report: " ++ text).
Proof.
  change ("# College Visit Report: " ++ text)
    with ("# " ++ "College Visit Report: " ++ text).
  unfold classify, startsWith. cbn [String.append String.prefix].
  decide_chars. f_equal.
  apply (substring1_after "# " ("College Visit Report: " ++ text)).
Qed.

Lemma classify_keyPoint (notes : list Note) (point : string) :
  In point (expectedKeyPoints notes) -> classify (bulletLine point) = ListItem point.
Proof.
  unfold expectedKeyPoints. intros Hin. apply in_map_iff in Hin.
  destruct Hin as [row [<- Hin]]. apply filter_In in Hin. destruct Hin as [Hin _].
  unfold keyPointTable in Hin. cbn [In] in Hin.
  repeat (destruct Hin as [<-|Hin]; [reflexivity|]). destruct Hin.
Qed.

Section Skeleton.
Variable toLocaleDateString : string -> string.
Variable today : string.
Variable nativeText : string -> string.

Let compose := createReport toLocaleDateString today nativeText.
Let unitsOf := documentLines toLocaleDateString today nativeText.

Lemma heading_in_units visit photos notes note :
  In note notes ->
  In ("### " ++ heading nativeText (category note))
     (unitsOf visit photos notes (Obj.entries (stableGrouping notes))
              (expectedKeyPoints notes)).
Proof.
  intros Hin. unfold unitsOf, documentLines.
  apply in_or_app. right. apply in_or_app. right. apply in_or_app. left.
  assert (Hentry : In (category note, notesOf (category note) notes)
                      (Obj.entries (stableGrouping notes))).
  { apply entries_stableGrouping. split; [now apply in_map | reflexivity]. }
  unfold observationLines.
  destruct (Obj.entries (stableGrouping notes)) as [|e es] eqn:E; [destruct Hentry|].
  rewrite <- E in *. apply in_or_app. right.
  apply in_flat_map. exists (category note, notesOf (category note) notes).
  split; [exact Hentry|]. unfold categoryLines. cbn [fst snd]. now left.
Qed.

Lemma entries_nonempty notes :
  notes <> [] -> Obj.entries (stableGrouping notes) <> [].
Proof.
  destruct notes as [|n notes]; [contradiction|]. intros _ H.
  assert (Hentry : In (category n, notesOf (category n) (n :: notes))
                      (Obj.entries (stableGrouping (n :: notes)))).
  { apply entries_stableGrouping. split; [now left | reflexivity]. }
  rewrite H in Hentry. destruct Hentry.
Qed.

(** X7. What the composer writes as structure comes back as structure.  For
    inputs free of line feeds, the first element rendered from a composed
    document is the level-one heading with the title, the section titles are
    level-two headings (Detailed Observations when there is a note, Visual
    Documentation when there is a photo), every note's category is a
    level-three heading holding its title, or the raw tag for an unmapped
    category, and every key point is a list item. *)
Theorem composed_structure_renders visit photos notes doc :
  compose visit photos notes = Ok doc ->
  singleLine (college_name visit) = true ->
  singleLine (toLocaleDateString (visit_date visit)) = true ->
  singleLine (location visit) = true ->
  singleLine today = true ->
  forallb (fun note => singleLine (category note) && singleLine (content note)) notes
  = true ->
  forallb (fun photo => singleLine (caption photo)) photos = true ->
  nth_error (render doc) 0
  = Some (Heading1 ("College Visit Report: " ++ college_name visit)) /\
  In (Heading2 "Executive Summary") (render doc) /\
  In (Heading2 "Key Takeaways") (render doc) /\
  In (Heading2 "Next Steps") (render doc) /\
  (notes <> [] -> In (Heading2 "Detailed Observations") (render doc)) /\
  (photos <> [] -> In (Heading2 "Visual Documentation") (render doc)) /\
  (forall note, In note notes ->
     In (Heading3 (heading nativeText (category note))) (render doc)) /\
  (forall point, In point (expectedKeyPoints notes) ->
     In (ListItem point) (render doc)).
Proof.
  intros Hdoc Hname Hdate Hloc Htoday Hnotes Hphotos.
  apply createReport_Ok in Hdoc. destruct Hdoc as [Hacc Hdoc].
  fold unitsOf in Hdoc.
  set (units := unitsOf visit photos notes (Obj.entries (stableGrouping notes))
                        (expectedKeyPoints notes)) in *.
  assert (Hrender : render doc = map classify (units ++ [""])%list).
  { unfold render. rewrite Hdoc. f_equal. apply split_unlines.
    now apply documentLines_singleLine. }
  assert (Hin : forall unit element,
            In unit units -> classify unit = element -> In element (render doc)).
  { intros unit element Hunit <-. rewrite Hrender. apply in_map.
    apply in_or_app. now left. }
  split; [|split; [|split; [|split; [|split; [|split; [|split]]]]]].
  - rewrite Hrender. unfold units, unitsOf, documentLines, headerLines, titleLine.
    cbn [List.app map nth_error]. now rewrite classify_title.
  - apply (Hin "## Executive Summary"); [|reflexivity].
    unfold units, unitsOf, documentLines, summaryLines.
    apply in_or_app. right. apply in_or_app. left. now left.
  - apply (Hin "## Key Takeaways"); [|reflexivity].
    unfold units, unitsOf, documentLines, takeawayLines.
    do 4 (apply in_or_app; right). apply in_or_app. left. now left.
  - apply (Hin "## Next Steps"); [|reflexivity].
    unfold units, unitsOf, documentLines, nextStepLines.
    do 5 (apply in_or_app; right). apply in_or_app. left. now left.
  - intros Hne. apply (Hin "## Detailed Observations"); [|reflexivity].
    unfold units, unitsOf, documentLines, observationLines.
    do 2 (apply in_or_app; right). apply in_or_app. left.
    pose proof (entries_nonempty notes Hne) as He.
    destruct (Obj.entries (stableGrouping notes)); [contradiction | now left].
  - intros Hne. apply (Hin "## Visual Documentation"); [|reflexivity].
    unfold units, unitsOf, documentLines, photoLines.
    do 3 (apply in_or_app; right). apply in_or_app. left.
    destruct photos; [contradiction | now left].
  - intros note Hnote.
    apply (Hin ("### " ++ heading nativeText (category note)));
      [now apply heading_in_units | apply classify_heading3].
  - intros point Hpoint.
    apply (Hin (bulletLine point)); [|now apply (classify_keyPoint notes)].
    unfold units, unitsOf, documentLines, takeawayLines.
    do 4 (apply in_or_app; right). apply in_or_app. left.
    destruct notes as [|n notes']; [destruct Hpoint|].
    apply in_or_app. right. apply in_or_app. right. apply in_or_app. left.
    now apply in_map.
Qed.

End Skeleton.

Lemma composed_structure_renders_witness :
  nth_error (render Samples.report) 0
  = Some (Heading1 "College Visit Report: Example College") /\
  In (Heading3 "Campus Life & Culture") (render Samples.report) /\
  In (ListItem "Campus culture and student life were observed") (render Samples.report).
Proof.
  destruct (composed_structure_renders Samples.longDate Samples.today
              Samples.nativeText Samples.visit Samples.photos Samples.notes
              Samples.report eq_refl eq_refl eq_refl eq_refl eq_refl eq_refl eq_refl)
    as [Htitle [_ [_ [_ [_ [_ [Hcat Hpoint]]]]]]].
  split; [exact Htitle|]. split.
  - apply (Hcat (Samples.note "campus" "Lively quad")). now left.
  - apply Hpoint. cbn. tauto.
Defined.

(** ** More on the composer *)

Lemma firstSeen_length (cs : list string) : List.length (firstSeen cs) <= List.length cs.
Proof.
  induction cs as [|c cs IH]; cbn [firstSeen List.length]; [lia|].
  pose proof (filter_length_le (fun d => negb (d =? c)) (firstSeen cs)). lia.
Qed.

Lemma keys_length {V : Type} (o : Obj.t V) :
  List.length (Obj.keys o) = List.length o.
Proof.
  rewrite <- (Permutation_length (keys_perm o)). apply length_map.
Qed.

Section ComposerMore.
Variable toLocaleDateString : string -> string.
Variable today : string.
Variable nativeText : string -> string.

Let compose := createReport toLocaleDateString today nativeText.

(** X8. The number the Executive Summary reports as "different categories"
    is the number of distinct category tags among the notes, at most the
    number of notes, and the Detailed Observations block appends something
    exactly when there is a note. *)
Theorem categories_are_counted notes (o : Obj.t (list Note)) :
  groupNotes notes = Ok o ->
  (exists tags,
     NoDup tags /\
     (forall c, In c tags <-> exists note, In note notes /\ category note = c) /\
     List.length (Obj.keys o) = List.length tags) /\
  List.length (Obj.keys o) <= List.length notes /\
  (List.length (Obj.keys o) = 0 <-> notes = []) /\
  (forall report, detailedObservations nativeText o report = report <-> notes = []).
Proof.
  intros Hgroup. apply groupNotes_Ok in Hgroup. destruct Hgroup as [-> _].
  assert (Hlen : List.length (Obj.keys (stableGrouping notes))
                 = List.length (firstSeen (map category notes))).
  { rewrite keys_length. unfold stableGrouping. apply length_map. }
  assert (Hzero : List.length (Obj.keys (stableGrouping notes)) = 0 <-> notes = []).
  { rewrite Hlen. destruct notes as [|n notes]; cbn; split; try reflexivity;
      discriminate. }
  split; [|split; [|split]].
  - exists (firstSeen (map category notes)). split; [apply firstSeen_NoDup|].
    split; [|exact Hlen].
    intros c. rewrite firstSeen_In, in_map_iff. split.
    + intros [n [Hc Hn]]. now exists n.
    + intros [n [Hn Hc]]. now exists n.
  - rewrite Hlen. pose proof (firstSeen_length (map category notes)) as H.
    now rewrite length_map in H.
  - exact Hzero.
  - intros report. rewrite detailedObservations_text. rewrite <- Hzero.
    rewrite <- entries_length. split.
    + intros H. apply append_cancel_empty, unlines_empty_iff in H.
      unfold observationLines in H.
      destruct (Obj.entries (stableGrouping notes)); [reflexivity | discriminate H].
    + intros H. destruct (Obj.entries (stableGrouping notes)); [|discriminate H].
      cbn. apply append_empty_r.
Qed.

(** X9. Whenever [createReport] returns, the text opens with the title line
    naming the college and the date line, and closes with the rule and the
    generation line; in particular it is never empty and the college name
    occurs in it. *)
Theorem report_frame visit photos notes doc :
  compose visit photos notes = Ok doc ->
  (exists body,
     doc = "# College Visit Report: " ++ college_name visit ++ nl ++ nl
           ++ "**Visit Date:** " ++ toLocaleDateString (visit_date visit) ++ nl ++ nl
           ++ body
           ++ "---" ++ nl ++ nl ++ "*Report generated on " ++ today ++ "*" ++ nl) /\
  doc <> "" /\
  occursIn (college_name visit) doc.
Proof.
  intros Hdoc. unfold compose in Hdoc. apply createReport_Ok in Hdoc.
  destruct Hdoc as [_ Hdoc].
  assert (Hframe : exists body,
     doc = "# College Visit Report: " ++ college_name visit ++ nl ++ nl
           ++ "**Visit Date:** " ++ toLocaleDateString (visit_date visit) ++ nl ++ nl
           ++ body
           ++ "---" ++ nl ++ nl ++ "*Report generated on " ++ today ++ "*" ++ nl).
  { rewrite Hdoc. unfold documentLines, headerLines, footerLines, titleLine, dateLine.
    exists (unlines
              ((if truthy (location visit) then [locationLine visit; ""] else [])
               ++ ["---"; ""]
               ++ summaryLines visit (List.length photos) (List.length notes)
                    (List.length (Obj.entries (stableGrouping notes)))
               ++ observationLines nativeText (Obj.entries (stableGrouping notes))
               ++ photoLines photos
               ++ takeawayLines notes (expectedKeyPoints notes)
               ++ nextStepLines)%list).
    text_normalize. reflexivity. }
  split; [exact Hframe|]. destruct Hframe as [body ->]. split; [discriminate|].
  exists "# College Visit Report: ". eexists. reflexivity.
Qed.

End ComposerMore.

Lemma categories_are_counted_witness :
  groupNotes Samples.notes = Ok (stableGrouping Samples.notes) /\
  List.length (Obj.keys (stableGrouping Samples.notes)) <= 4.
Proof.
  split; [reflexivity|].
  apply (categories_are_counted Samples.nativeText Samples.notes
           (stableGrouping Samples.notes) eq_refl).
Defined.

Lemma report_frame_witness :
  Samples.report <> "" /\ occursIn "Example College" Samples.report.
Proof.
  exact (proj2 (report_frame Samples.longDate Samples.today Samples.nativeText
                  Samples.visit Samples.photos Samples.notes Samples.report eq_refl)).
Defined.


(** ** The composer and its callers *)

Section Callers.
Variable toLocaleDateString : string -> string.
Variable today : string.
Variable nativeText : string -> string.

Let compose := createReport toLocaleDateString today nativeText.

(** X10. A note added through [handleNoteAdded] goes to the front of the
    list, so (when no category tag is an array index) the next report opens
    its Detailed Observations with that note's category and, under the
    category heading, with that note's content. *)
Theorem newest_note_leads note notes (o : Obj.t (list Note)) :
  forallb (fun n => negb (Obj.isArrayIndex (category n)))
          (VisitDetail.handleNoteAdded note notes) = true ->
  groupNotes (VisitDetail.handleNoteAdded note notes) = Ok o ->
  (exists rest,
     Obj.entries o = (category note, note :: notesOf (category note) notes) :: rest) /\
  (exists more,
     observationLines nativeText (Obj.entries o) =
     ["## Detailed Observations"; "";
      ("### " ++ heading nativeText (category note))%string; "";
      content note; ""] ++ more)%list.
Proof.
  unfold VisitDetail.handleNoteAdded. intros Hplain Hgroup.
  apply groupNotes_Ok in Hgroup. destruct Hgroup as [-> _].
  assert (Hentries : Obj.entries (stableGrouping (note :: notes))
                     = stableGrouping (note :: notes)).
  { apply entries_creation_order; [apply stableGrouping_NoDup|].
    rewrite stableGrouping_keys. apply Forall_forall. intros c Hc.
    apply firstSeen_In, in_map_iff in Hc. destruct Hc as [n [<- Hn]].
    rewrite forallb_forall in Hplain. specialize (Hplain n Hn).
    now apply negb_true_iff. }
  rewrite Hentries.
  assert (Hhead : exists rest,
            stableGrouping (note :: notes)
            = (category note, note :: notesOf (category note) notes) :: rest).
  { unfold stableGrouping, notesOf. cbn [map firstSeen filter].
    rewrite String.eqb_refl. eexists. reflexivity. }
  split; [exact Hhead|]. destruct Hhead as [rest ->].
  unfold observationLines. cbn [flat_map categoryLines fst snd noteLines List.app].
  eexists. reflexivity.
Qed.

(** X11. Notes tagged with the values the editor offers ([CATEGORIES]) never
    make [createReport] throw; they are grouped in order of first
    occurrence, and each of their categories is headed by its title from the
    table, never by the raw tag. *)
Theorem editor_notes_compose visit photos notes :
  (forall note, In note notes ->
     In (category note) (map NotesList.value NotesList.CATEGORIES)) ->
  (exists doc, compose visit photos notes = Ok doc) /\
  groupNotes notes = Ok (stableGrouping notes) /\
  Obj.entries (stableGrouping notes) = stableGrouping notes /\
  (forall note, In note notes ->
     Obj.own categoryTitles (category note)
     = Some (heading nativeText (category note))).
Proof.
  intros Htags.
  assert (Hplain : forallb (fun note => plainTag (category note)) notes = true).
  { apply forallb_forall. intros n Hn. specialize (Htags n Hn).
    cbn [map NotesList.CATEGORIES NotesList.value In] in Htags.
    repeat (destruct Htags as [<-|Htags]; [reflexivity|]). destruct Htags. }
  assert (Hacc : forallb accepted notes = true).
  { apply forallb_forall. intros n Hn. rewrite forallb_forall in Hplain.
    specialize (Hplain n Hn). unfold plainTag in Hplain.
    apply andb_prop in Hplain. apply (proj2 Hplain). }
  split; [|split; [|split]].
  - unfold compose. rewrite createReport_returns, Hacc. eexists. reflexivity.
  - rewrite groupNotes_spec. now rewrite Hacc.
  - apply entries_creation_order; [apply stableGrouping_NoDup|].
    rewrite stableGrouping_keys. apply Forall_forall. intros c Hc.
    apply firstSeen_In, in_map_iff in Hc. destruct Hc as [n [<- Hn]].
    rewrite forallb_forall in Hplain. specialize (Hplain n Hn).
    unfold plainTag in Hplain. apply andb_prop in Hplain.
    now apply negb_true_iff, (proj1 Hplain).
  - intros n Hn. specialize (Htags n Hn).
    cbn [map NotesList.CATEGORIES NotesList.value In] in Htags.
    repeat (destruct Htags as [<-|Htags]; [reflexivity|]). destruct Htags.
Qed.

End Callers.

Lemma newest_note_leads_witness :
  exists more,
    observationLines Samples.nativeText
      (Obj.entries (stableGrouping (Samples.note "housing" "Quiet dorms" :: Samples.notes)))
    = (["## Detailed Observations"; ""; "### Housing & Accommodation"; "";
        "Quiet dorms"; ""] ++ more)%list.
Proof.
  exact (proj2 (newest_note_leads Samples.nativeText
                  (Samples.note "housing" "Quiet dorms") Samples.notes
                  (stableGrouping (Samples.note "housing" "Quiet dorms" :: Samples.notes))
                  eq_refl eq_refl)).
Defined.

Lemma editor_notes_compose_witness :
  groupNotes Samples.notes = Ok (stableGrouping Samples.notes).
Proof.
  refine (proj1 (proj2 (editor_notes_compose Samples.longDate Samples.today
                          Samples.nativeText Samples.visit Samples.photos
                          Samples.notes _))).
  intros note Hin. cbn in Hin.
  repeat (destruct Hin as [<-|Hin]; [cbn; tauto|]). destruct Hin.
Defined.

(** ** What a report depends on *)

Lemma noteText_category notes notes' :
  map noteText notes = map noteText notes' -> map category notes = map category notes'.
Proof.
  intros H. apply (f_equal (map fst)) in H. rewrite !map_map in H. exact H.
Qed.

Lemma noteText_contents k notes : forall notes',
  map noteText notes = map noteText notes' ->
  map content (notesOf k notes) = map content (notesOf k notes').
Proof.
  unfold notesOf.
  induction notes as [|n notes IH]; intros [|n' notes'] H; try discriminate H;
    [reflexivity|].
  cbn [map] in H. unfold noteText at 1 3 in H. injection H as Hc Ht Hrest.
  cbn [filter]. rewrite Hc.
  destruct (category n' =? k); cbn [map]; rewrite ?Ht; now rewrite (IH notes' Hrest).
Qed.

Lemma noteText_accepted notes notes' :
  map noteText notes = map noteText notes' ->
  forallb accepted notes = forallb accepted notes'.
Proof.
  intros H. apply noteText_category in H.
  assert (Hmap : forall l, forallb accepted l
                           = forallb (fun c => negb (Obj.inherited c)) (map category l)).
  { induction l as [|n l IH]; [reflexivity|]. cbn [map forallb]. now rewrite IH. }
  now rewrite !Hmap, H.
Qed.

Lemma noteText_keyPoints notes notes' :
  map noteText notes = map noteText notes' ->
  expectedKeyPoints notes = expectedKeyPoints notes'.
Proof.
  intros H. apply noteText_category in H.
  assert (Hex : forall l c, existsb (fun note => category note =? c) l
                            = existsb (fun d => d =? c) (map category l)).
  { induction l as [|n l IH]; intros c; [reflexivity|]. cbn [map existsb].
    now rewrite IH. }
  unfold expectedKeyPoints. f_equal. apply filter_ext. intros row.
  now rewrite !Hex, H.
Qed.

(** The entries of a grouping, seen through the contents of the notes. *)
Lemma entries_contents notes :
  map (fun e => (fst e, map content (snd e))) (Obj.entries (stableGrouping notes))
  = flat_map (fun k => match Obj.own (stableGrouping notes) k with
                       | Some group => [(k, map content group)]
                       | None => []
                       end)
             (Obj.keys (stableGrouping notes)).
Proof.
  unfold Obj.entries. induction (Obj.keys (stableGrouping notes)) as [|k ks IH];
    [reflexivity|].
  cbn [flat_map]. rewrite map_app, IH.
  destruct (Obj.own (stableGrouping notes) k); reflexivity.
Qed.

Lemma noteText_entries notes notes' :
  map noteText notes = map noteText notes' ->
  map (fun e => (fst e, map content (snd e))) (Obj.entries (stableGrouping notes))
  = map (fun e => (fst e, map content (snd e))) (Obj.entries (stableGrouping notes')).
Proof.
  intros H. rewrite !entries_contents.
  assert (Hkeys : Obj.keys (stableGrouping notes) = Obj.keys (stableGrouping notes')).
  { unfold Obj.keys. now rewrite !stableGrouping_keys, (noteText_category _ _ H). }
  rewrite Hkeys. apply flat_map_ext. intros k.
  unfold stableGrouping. rewrite !own_tabulate, (noteText_category _ _ H).
  destruct (existsb (String.eqb k) (firstSeen (map category notes'))); [|reflexivity].
  now rewrite (noteText_contents k notes notes' H).
Qed.

Lemma observationLines_contents nativeText groups : forall groups',
  map (fun e => (fst e, map content (snd e))) groups
  = map (fun e => (fst e, map content (snd e))) groups' ->
  observationLines nativeText groups = observationLines nativeText groups'.
Proof.
  assert (Hnotes : forall ns ns', map content ns = map content ns' ->
                                  noteLines ns = noteLines ns').
  { unfold noteLines. induction ns as [|n ns IH]; intros [|n' ns'] H;
      try discriminate H; [reflexivity|].
    cbn [map] in H. injection H as Hn Hrest. cbn [flat_map].
    now rewrite Hn, (IH ns' Hrest). }
  assert (Hflat : forall gs gs',
            map (fun e => (fst e, map content (snd e))) gs
            = map (fun e => (fst e, map content (snd e))) gs' ->
            flat_map (categoryLines nativeText) gs
            = flat_map (categoryLines nativeText) gs').
  { induction gs as [|g gs IH]; intros [|g' gs'] H; try discriminate H;
      [reflexivity|].
    cbn [map] in H. injection H as Hk Hv Hrest. cbn [flat_map].
    unfold categoryLines at 1 3. now rewrite Hk, (Hnotes _ _ Hv), (IH gs' Hrest). }
  intros [|g' gs'] H; destruct groups as [|g gs]; try discriminate H;
    [reflexivity|].
  unfold observationLines. now rewrite (Hflat _ _ H).
Qed.

Lemma photoLines_captions photos photos' :
  map caption photos = map caption photos' -> photoLines photos = photoLines photos'.
Proof.
  intros H.
  assert (Hbullets : forall l,
            map (fun photo => bulletLine (caption photo)) (captioned l)
            = map bulletLine (filter truthy (map caption l))).
  { unfold captioned. induction l as [|p l IH]; [reflexivity|].
    cbn [map filter]. destruct (truthy (caption p)); cbn [map]; now rewrite IH. }
  assert (Hlen : List.length photos = List.length photos').
  { apply (f_equal (@List.length string)) in H. now rewrite !length_map in H. }
  unfold photoLines.
  destruct photos as [|p ps], photos' as [|p' ps']; try discriminate H;
    [reflexivity|].
  now rewrite !Hbullets, H, Hlen.
Qed.

(** X12. A report shows of a visit only its college name, date and location,
    of a photo only its caption, and of a note only its category and content:
    two inputs that agree on these give the same outcome of [createReport]
    (the same text, or the same error), whatever their identifiers, owners,
    URLs, status and timestamps. *)
Theorem report_ignores_identifiers
  (toLocaleDateString : string -> string) (today : string)
  (nativeText : string -> string)
  (visit visit' : Visit) (photos photos' : list Photo) (notes notes' : list Note) :
  college_name visit = college_name visit' ->
  visit_date visit = visit_date visit' ->
  location visit = location visit' ->
  map caption photos = map caption photos' ->
  map noteText notes = map noteText notes' ->
  createReport toLocaleDateString today nativeText visit photos notes
  = createReport toLocaleDateString today nativeText visit' photos' notes'.
Proof.
  intros Hname Hdate Hloc Hphotos Hnotes.
  rewrite !createReport_returns.
  rewrite (noteText_accepted _ _ Hnotes).
  destruct (forallb accepted notes'); [|reflexivity].
  f_equal. f_equal.
  pose proof (noteText_entries _ _ Hnotes) as Hentries.
  assert (Hcount : List.length (Obj.entries (stableGrouping notes))
                   = List.length (Obj.entries (stableGrouping notes'))).
  { apply (f_equal (@List.length (string * list string))) in Hentries.
    now rewrite !length_map in Hentries. }
  assert (Hlen : List.length notes = List.length notes').
  { apply (f_equal (@List.length (string * string))) in Hnotes.
    now rewrite !length_map in Hnotes. }
  assert (Hplen : List.length photos = List.length photos').
  { apply (f_equal (@List.length string)) in Hphotos.
    now rewrite !length_map in Hphotos. }
  unfold documentLines, headerLines, summaryLines, summaryLine, titleLine, dateLine,
    locationLine, takeawayLines.
  rewrite Hname, Hdate, Hloc, Hcount, Hlen, Hplen,
    (observationLines_contents nativeText _ _ Hentries),
    (photoLines_captions _ _ Hphotos), (noteText_keyPoints _ _ Hnotes).
  destruct notes as [|n ns], notes' as [|n' ns']; try discriminate Hlen; reflexivity.
Qed.

Lemma report_ignores_identifiers_witness :
  createReport Samples.longDate Samples.today Samples.nativeText
    Samples.visit Samples.photos Samples.notes
  = createReport Samples.longDate Samples.today Samples.nativeText
      (mkVisit "other" "someone" "Example College" "2025-03-01" "Springfield" draft "" "")
      (map (fun p => mkPhoto "q" "w" "https://example.org/other.png" (caption p) "")
           Samples.photos)
      (map (fun n => mkNote "m" "w" (category n) (content n) "" "") Samples.notes).
Proof.
  apply report_ignores_identifiers; reflexivity.
Defined.

(** ** ReportView: generating and downloading *)

(** Splits a membership in an explicit trace into its cases and drops the
    events of another kind. *)
Ltac trace_cases H :=
  cbn [In] in H;
  repeat (destruct H as [H|H]; [try discriminate H|]);
  try contradiction.

Section Generate.
Variable toLocaleDateString : string -> string.
Variable today : string.
Variable nativeText : string -> string.
Variable insertReport : string -> string -> Response Report.

Let compose := createReport toLocaleDateString today nativeText.
Let generate :=
  ReportView.generateReport toLocaleDateString today nativeText insertReport.

(** X13. [generateReport] always sets the generating flag first and clears
    it last.  It asks the store to insert a row exactly when [createReport]
    returns, and then with the visit's id and the composed text; it hands a
    report to the parent exactly when the store answered that insert with a
    row and no error; it alerts exactly when composing threw or the store
    answered with an error.  A note whose category makes [createReport] throw
    therefore leaves no report behind. *)
Theorem generateReport_outcomes visit photos notes :
  hd_error (generate visit photos notes) = Some (ReportView.SetGenerating true) /\
  List.last (generate visit photos notes) (ReportView.SetGenerating true)
  = ReportView.SetGenerating false /\
  (forall id text,
     In (ReportView.InsertReport id text) (generate visit photos notes) <->
     compose visit photos notes = Ok text /\ id = visit_id_ visit) /\
  (forall report,
     In (ReportView.OnReportGenerated report) (generate visit photos notes) <->
     exists text,
       compose visit photos notes = Ok text /\
       res_error (insertReport (visit_id_ visit) text) = None /\
       res_data (insertReport (visit_id_ visit) text) = Some report) /\
  (In (ReportView.Alert "Failed to generate report") (generate visit photos notes) <->
   forallb accepted notes = false \/
   exists text,
     compose visit photos notes = Ok text /\
     res_error (insertReport (visit_id_ visit) text) <> None) /\
  (forallb accepted notes = false ->
   generate visit photos notes
   = [ReportView.SetGenerating true;
      ReportView.ConsoleError "Error generating report:";
      ReportView.Alert "Failed to generate report";
      ReportView.SetGenerating false]).
Proof.
  unfold generate, ReportView.generateReport, compose.
  rewrite createReport_returns.
  destruct (forallb accepted notes) eqn:Hacc.
  - remember (unlines _) as text eqn:Htext. clear Htext.
    destruct (insertReport (visit_id_ visit) text) as [d e] eqn:Hres.
    cbn [res_error res_data].
    assert (Hinsert : forall (rest : list ReportView.Event) id t,
              (forall i c, ~ In (ReportView.InsertReport i c) rest) ->
              (In (ReportView.InsertReport id t)
                  (ReportView.SetGenerating true
                   :: ReportView.InsertReport (visit_id_ visit) text :: rest) <->
               Ok text = Ok t /\ id = visit_id_ visit)).
    { intros rest id t Hrest. cbn [In]. split.
      - intros [H|[H|H]]; [discriminate H | | now apply Hrest in H].
        injection H as <- <-. now split.
      - intros [[= <-] ->]. right. now left. }
    destruct e as [e|]; [|destruct d as [d|]];
      cbn [ReportView.failure List.app hd_error List.last];
      (split; [reflexivity|]); (split; [reflexivity|]);
      (split; [intros id t; apply Hinsert; intros i c H; trace_cases H|]).
    + split; [|split; [|discriminate]].
      * intros r. split; [intros H; trace_cases H|].
        intros [t [[= <-] [He _]]]. rewrite Hres in He. discriminate He.
      * split; [|intros _; cbn [In]; tauto].
        intros _. right. exists text. split; [reflexivity|].
        rewrite Hres. discriminate.
    + split; [|split; [|discriminate]].
      * intros r. split.
        -- intros H. trace_cases H. injection H as <-. exists text.
           rewrite Hres. now repeat split.
        -- intros [t [[= <-] [_ Hd]]]. rewrite Hres in Hd. injection Hd as <-.
           cbn [In]. tauto.
      * split; [intros H; trace_cases H|].
        intros [H|[t [[= <-] He]]]; [discriminate H|].
        rewrite Hres in He. now contradiction He.
    + split; [|split; [|discriminate]].
      * intros r. split; [intros H; trace_cases H|].
        intros [t [[= <-] [_ Hd]]]. rewrite Hres in Hd. discriminate Hd.
      * split; [intros H; trace_cases H|].
        intros [H|[t [[= <-] He]]]; [discriminate H|].
        rewrite Hres in He. now contradiction He.
  - cbn [ReportView.failure List.app hd_error List.last].
    split; [reflexivity|]. split; [reflexivity|].
    split; [|split; [|split]].
    + intros id t. split; [intros H; trace_cases H | intros [H _]; discriminate H].
    + intros r. split; [intros H; trace_cases H | intros [t [H _]]; discriminate H].
    + split; [intros _; now left | intros _; cbn [In]; tauto].
    + reflexivity.
Qed.

End Generate.

Lemma generateReport_outcomes_witness :
  forallb accepted [Samples.note "valueOf" "Nice"] = false /\
  ReportView.generateReport Samples.longDate Samples.today Samples.nativeText
    (fun _ _ => mkResponse None None) Samples.visit [] [Samples.note "valueOf" "Nice"]
  = [ReportView.SetGenerating true;
     ReportView.ConsoleError "Error generating report:";
     ReportView.Alert "Failed to generate report";
     ReportView.SetGenerating false].
Proof.
  split; [reflexivity|].
  apply (generateReport_outcomes Samples.longDate Samples.today Samples.nativeText
           (fun _ _ => mkResponse None None) Samples.visit []
           [Samples.note "valueOf" "Nice"]).
  reflexivity.
Defined.

Lemma noWhiteSpace_cons (c : ascii) (s : string) :
  noWhiteSpace (String c s) = negb (isWhiteSpace c) && noWhiteSpace s.
Proof. reflexivity. Qed.

Lemma replaceRuns_noWhiteSpace (inRun : bool) (s : string) :
  noWhiteSpace (ReportView.replaceRuns "_" inRun s) = true.
Proof.
  revert inRun. induction s as [|c s IH]; intros inRun; [reflexivity|].
  cbn [ReportView.replaceRuns]. destruct (isWhiteSpace c) eqn:Hc.
  - destruct inRun; [apply IH|].
    change ("_" ++ ReportView.replaceRuns "_" true s)
      with (String "_" (ReportView.replaceRuns "_" true s)).
    rewrite noWhiteSpace_cons, IH. reflexivity.
  - rewrite noWhiteSpace_cons, Hc, IH. reflexivity.
Qed.

Lemma replaceRuns_length (inRun : bool) (s : string) :
  String.length (ReportView.replaceRuns "_" inRun s) <= String.length s.
Proof.
  revert inRun. induction s as [|c s IH]; intros inRun; [reflexivity|].
  cbn [ReportView.replaceRuns String.length]. destruct (isWhiteSpace c).
  - destruct inRun.
    + specialize (IH true). lia.
    + change ("_" ++ ReportView.replaceRuns "_" true s)
        with (String "_" (ReportView.replaceRuns "_" true s)).
      cbn [String.length]. specialize (IH true). lia.
  - cbn [String.length]. specialize (IH false). lia.
Qed.

Lemma replaceRuns_fixed (inRun : bool) (s : string) :
  noWhiteSpace s = true -> ReportView.replaceRuns "_" inRun s = s.
Proof.
  revert inRun. induction s as [|c s IH]; intros inRun H; [reflexivity|].
  rewrite noWhiteSpace_cons in H. apply andb_prop in H. destruct H as [Hc Hs].
  apply negb_true_iff in Hc. cbn [ReportView.replaceRuns]. rewrite Hc.
  now rewrite (IH false Hs).
Qed.

(** X14. [downloadReport] offers nothing when there is no report.  With a
    report it offers the stored text unchanged, as Markdown, under the
    college name followed by [_Visit_Report.md], where every run of white
    space of the name has become one underscore: the name part holds no
    white space, is no longer than the college name, and is the college name
    itself when that has no white space. *)
Theorem download_name (visit : Visit) :
  ReportView.downloadReport visit None = None /\
  (forall report,
     ReportView.downloadReport visit (Some report)
     = Some (ReportView.mkDownload (report_content report) "text/markdown"
               (ReportView.replaceWhiteSpace (college_name visit) "_"
                ++ "_Visit_Report.md"))) /\
  noWhiteSpace (ReportView.replaceWhiteSpace (college_name visit) "_") = true /\
  String.length (ReportView.replaceWhiteSpace (college_name visit) "_")
  <= String.length (college_name visit) /\
  ReportView.replaceWhiteSpace
    (ReportView.replaceWhiteSpace (college_name visit) "_") "_"
  = ReportView.replaceWhiteSpace (college_name visit) "_" /\
  (noWhiteSpace (college_name visit) = true ->
   ReportView.replaceWhiteSpace (college_name visit) "_" = college_name visit).
Proof.
  unfold ReportView.replaceWhiteSpace.
  split; [reflexivity|]. split; [reflexivity|].
  split; [apply replaceRuns_noWhiteSpace|].
  split; [apply replaceRuns_length|].
  split; [apply replaceRuns_fixed, replaceRuns_noWhiteSpace | apply replaceRuns_fixed].
Qed.

Lemma download_name_witness :
  ReportView.replaceWhiteSpace "MIT" "_" = "MIT" /\
  ReportView.replaceWhiteSpace (college_name Samples.visit) "_" = "Example_College".
Proof.
  split; [|reflexivity].
  apply (proj2 (proj2 (proj2 (proj2 (proj2
           (download_name (mkVisit "v" "u" "MIT" "2025-03-01" "" draft "" ""))))))).
  reflexivity.
Defined.

(** ** NotesList: saving a note *)

Lemma truthy_trim (s : string) : truthy (trim s) = negb (blank s).
Proof.
  unfold truthy. destruct (blank s) eqn:Hb.
  - apply trim_empty_blank in Hb. now rewrite Hb.
  - destruct (String.eqb_spec (trim s) "") as [He|_]; [|reflexivity].
    apply trim_empty_blank in He. congruence.
Qed.

Section SaveNote.
Variable visitId : string.
Variable now : string.
Variable updateNote : string -> string -> string -> string -> Response Note.
Variable insertNote : string -> string -> string -> Response Note.

Let save := NotesList.handleSaveNote visitId now updateNote insertNote.

(** X15. A note whose content is empty or white space only is not saved:
    [handleSaveNote] then makes no store call, fires no callback and leaves
    the form as it is, and these are the only contents for which it makes no
    store call. *)
Theorem blank_note_is_not_saved (form : NotesList.Form) :
  (blank (NotesList.formContent form) = true -> save form = (form, [])) /\
  (snd (save form) = [] <-> blank (NotesList.formContent form) = true).
Proof.
  unfold save, NotesList.handleSaveNote. rewrite truthy_trim, negb_involutive.
  destruct (blank (NotesList.formContent form)).
  - split; [reflexivity | now split].
  - split; [discriminate|]. split; [|discriminate].
    destruct (NotesList.editingNote form) as [note|].
    + destruct (res_error (updateNote _ _ _ _)); cbn [snd]; discriminate.
    + destruct (res_error (insertNote _ _ _)); cbn [snd]; discriminate.
Qed.

(** X16. Saving a note with some content ends in one of two states.  When
    the store answers with an error the user is alerted and the form keeps
    the category, the content and the note being edited, so nothing typed is
    lost; otherwise the form is back to its initial state (hidden, category
    general, empty content, no note being edited).  Either way [saving] is
    false again. *)
Theorem save_keeps_text_on_failure (form : NotesList.Form) :
  blank (NotesList.formContent form) = false ->
  let failed := In (NotesList.Alert "Failed to save note") (snd (save form)) in
  (failed ->
   fst (save form)
   = NotesList.mkForm (NotesList.showAddNote form) (NotesList.formCategory form)
       (NotesList.formContent form) false (NotesList.editingNote form)) /\
  (~ failed -> fst (save form) = NotesList.initial) /\
  (failed <->
   match NotesList.editingNote form with
   | Some note =>
       res_error (updateNote (note_id note) (NotesList.formContent form)
                             (NotesList.formCategory form) now) <> None
   | None =>
       res_error (insertNote visitId (NotesList.formCategory form)
                             (NotesList.formContent form)) <> None
   end).
Proof.
  intros Hb. unfold save, NotesList.handleSaveNote.
  rewrite truthy_trim, Hb. cbn [negb].
  destruct (NotesList.editingNote form) as [note|].
  - destruct (res_error (updateNote _ _ _ _)) as [e|]; cbn [fst snd]; cbv zeta.
    + split; [reflexivity|]. split; [|split; [discriminate|]].
      * intros H. exfalso. apply H. cbn. tauto.
      * intros _. cbn. tauto.
    + split; [|split; [reflexivity|]].
      * intros H. trace_cases H.
      * split; [intros H; trace_cases H | intros H; now contradiction H].
  - destruct (res_error (insertNote _ _ _)) as [e|]; cbn [fst snd]; cbv zeta.
    + split; [reflexivity|]. split; [|split; [discriminate|]].
      * intros H. exfalso. apply H. cbn. tauto.
      * intros _. cbn. tauto.
    + split; [|split; [reflexivity|]].
      * intros H. destruct (res_data (insertNote _ _ _)); trace_cases H.
      * split; [|intros H; now contradiction H].
        intros H. destruct (res_data (insertNote _ _ _)); trace_cases H.
Qed.

(** X17. What [handleSaveNote] sends.  While a note is being edited it sends
    one update of that note with the form's content and category, never an
    insert, and it fires no callback: the parent is not told of the change.
    Otherwise it sends one insert for the visit with the form's category and
    the content exactly as typed (not trimmed), and hands the parent the row
    the store returned, if any. *)
Theorem save_sends (form : NotesList.Form) :
  blank (NotesList.formContent form) = false ->
  match NotesList.editingNote form with
  | Some note =>
      hd_error (snd (save form))
      = Some (NotesList.UpdateNote (note_id note) (NotesList.formContent form)
                                   (NotesList.formCategory form) now) /\
      (forall v k c, ~ In (NotesList.InsertNote v k c) (snd (save form))) /\
      (forall row, ~ In (NotesList.OnNoteAdded row) (snd (save form)))
  | None =>
      hd_error (snd (save form))
      = Some (NotesList.InsertNote visitId (NotesList.formCategory form)
                                   (NotesList.formContent form)) /\
      (forall id c k u, ~ In (NotesList.UpdateNote id c k u) (snd (save form))) /\
      (forall row,
         In (NotesList.OnNoteAdded row) (snd (save form)) <->
         res_error (insertNote visitId (NotesList.formCategory form)
                               (NotesList.formContent form)) = None /\
         res_data (insertNote visitId (NotesList.formCategory form)
                              (NotesList.formContent form)) = Some row)
  end.
Proof.
  intros Hb. unfold save, NotesList.handleSaveNote.
  rewrite truthy_trim, Hb. cbn [negb].
  destruct (NotesList.editingNote form) as [note|].
  - destruct (res_error (updateNote _ _ _ _)) as [e|]; cbn [fst snd hd_error];
      (split; [reflexivity|]); split; intros; intros H; trace_cases H.
  - destruct (res_error (insertNote _ _ _)) as [e|] eqn:He; cbn [fst snd hd_error];
      (split; [reflexivity|]); split.
    + intros id c k u H. trace_cases H.
    + intros row. split; [intros H; trace_cases H | intros [H _]; discriminate H].
    + intros id c k u H. destruct (res_data (insertNote _ _ _)); trace_cases H.
    + intros row. destruct (res_data (insertNote _ _ _)) as [d|]; split.
      * intros H. trace_cases H. injection H as <-. now split.
      * intros [_ [= <-]]. cbn. tauto.
      * intros H. trace_cases H.
      * intros [_ H]. discriminate H.
Qed.

End SaveNote.

Lemma blank_note_is_not_saved_witness :
  let form := NotesList.mkForm true "campus" "   " false None in
  blank (NotesList.formContent form) = true /\
  NotesList.handleSaveNote "v" "now" (fun _ _ _ _ => mkResponse None None)
    (fun _ _ _ => mkResponse None None) form = (form, []).
Proof.
  cbv zeta. split; [reflexivity|].
  apply (blank_note_is_not_saved "v" "now" (fun _ _ _ _ => mkResponse None None)
           (fun _ _ _ => mkResponse None None)).
  reflexivity.
Defined.

Lemma save_keeps_text_on_failure_witness :
  let form := NotesList.mkForm true "campus" "Lively quad" false None in
  let refuse := fun _ _ _ : string => @mkResponse Note None (Some "offline") in
  blank (NotesList.formContent form) = false /\
  fst (NotesList.handleSaveNote "v" "now" (fun _ _ _ _ => mkResponse None None)
         refuse form) = form.
Proof.
  cbv zeta. split; [reflexivity|].
  refine (proj1 (save_keeps_text_on_failure "v" "now"
                   (fun _ _ _ _ => mkResponse None None)
                   (fun _ _ _ => mkResponse None (Some "offline"))
                   (NotesList.mkForm true "campus" "Lively quad" false None)
                   eq_refl) _).
  right. right. left. reflexivity.
Defined.

Lemma save_sends_witness :
  let form := NotesList.mkForm true "campus" " Lively quad" false
                (Some (Samples.note "campus" "Lively")) in
  blank (NotesList.formContent form) = false /\
  forall row,
    ~ In (NotesList.OnNoteAdded row)
         (snd (NotesList.handleSaveNote "v" "now"
                 (fun _ _ _ _ => mkResponse (Some (Samples.note "campus" " Lively quad")) None)
                 (fun _ _ _ => mkResponse None None) form)).
Proof.
  cbv zeta. split; [reflexivity|].
  exact (proj2 (proj2 (save_sends "v" "now"
                  (fun _ _ _ _ => mkResponse (Some (Samples.note "campus" " Lively quad")) None)
                  (fun _ _ _ => mkResponse None None)
                  (NotesList.mkForm true "campus" " Lively quad" false
                     (Some (Samples.note "campus" "Lively")))
                  eq_refl))).
Defined.

(** ** Splitting on one character: file extensions and dates *)

Lemma prefix_char (c d : ascii) (s : string) :
  String.prefix (String c "") (String d s) = Ascii.eqb d c.
Proof.
  cbn [String.prefix]. destruct (ascii_dec c d) as [<-|Hne].
  - now rewrite prefix_empty, Ascii.eqb_refl.
  - symmetry. apply Ascii.eqb_neq. congruence.
Qed.

Lemma without_cons (c d : ascii) (s : string) :
  without c (String d s) = negb (Ascii.eqb d c) && without c s.
Proof. reflexivity. Qed.

Lemma split_char_step (c d : ascii) (s : string) :
  split (String d s) (String c "") =
  if Ascii.eqb d c then "" :: split s (String c "")
  else match split s (String c "") with
       | field :: fields => String d field :: fields
       | [] => [String d ""]
       end.
Proof. unfold split. cbn [split_from]. now rewrite prefix_char. Qed.

Lemma split_char_nonempty (c : ascii) (s : string) : split s (String c "") <> [].
Proof.
  induction s as [|d s IH]; [discriminate|].
  rewrite split_char_step. destruct (Ascii.eqb d c); [discriminate|].
  destruct (split s (String c "")); [contradiction | discriminate].
Qed.

Lemma split_char_app (c : ascii) (a b : string) :
  split (a ++ String c b) (String c "")
  = (split a (String c "") ++ split b (String c ""))%list.
Proof.
  induction a as [|d a IH].
  - change ("" ++ String c b) with (String c b).
    now rewrite split_char_step, Ascii.eqb_refl.
  - change (String d a ++ String c b) with (String d (a ++ String c b)).
    rewrite !split_char_step, IH. destruct (Ascii.eqb d c); [reflexivity|].
    pose proof (split_char_nonempty c a) as Hne.
    destruct (split a (String c "")); [contradiction | reflexivity].
Qed.

Lemma split_char_without (c : ascii) (s : string) :
  without c s = true -> split s (String c "") = [s].
Proof.
  induction s as [|d s IH]; intros H; [reflexivity|].
  rewrite without_cons in H. apply andb_prop in H. destruct H as [Hd Hs].
  apply negb_true_iff in Hd. now rewrite split_char_step, Hd, (IH Hs).
Qed.

(** No field holds the separator. *)
Lemma split_char_fields (c : ascii) (s : string) :
  Forall (fun field => without c field = true) (split s (String c "")).
Proof.
  induction s as [|d s IH]; [repeat constructor|].
  rewrite split_char_step. destruct (Ascii.eqb d c) eqn:Hd.
  - constructor; [reflexivity | exact IH].
  - destruct (split s (String c "")) as [|f fs]; [repeat constructor; cbn; now rewrite Hd|].
    inversion IH as [|? ? Hf Hfs]; subst. constructor; [|exact Hfs].
    now rewrite without_cons, Hd, Hf.
Qed.

Lemma pop_app {A : Type} (xs ys : list A) : ys <> [] -> pop (xs ++ ys) = pop ys.
Proof.
  intros Hne. induction xs as [|x xs IH]; [reflexivity|].
  cbn [List.app pop]. destruct (xs ++ ys)%list eqn:E; [|exact IH].
  destruct xs; [contradiction | discriminate E].
Qed.

Lemma pop_In {A : Type} (xs : list A) (x : A) : pop xs = Some x -> In x xs.
Proof.
  induction xs as [|y xs IH]; [discriminate|]. cbn [pop].
  destruct xs as [|z xs]; [intros [= ->]; now left | intros H; right; now apply IH].
Qed.

Lemma pop_Some {A : Type} (xs : list A) : xs <> [] -> exists x, pop xs = Some x.
Proof.
  induction xs as [|y xs IH]; [contradiction|]. intros _. cbn [pop].
  destruct xs as [|z xs]; [now exists y | apply IH; discriminate].
Qed.

(** X18. The extension an upload is stored under is the part of the file
    name after its last dot and holds no dot; a name without a dot is its own
    extension (the file [notes] is stored as [<time>.notes]), so
    [fileExt] is never undefined. *)
Theorem file_extension (name : string) :
  (exists ext, PhotoGallery.fileExt name = Some ext /\ without "." ext = true) /\
  (without "." name = true -> PhotoGallery.fileExt name = Some name) /\
  (forall stem ext,
     name = stem ++ "." ++ ext -> without "." ext = true ->
     PhotoGallery.fileExt name = Some ext /\
     forall visitId now,
       PhotoGallery.fileName visitId now name
       = visitId ++ "/" ++ decimal now ++ "." ++ ext).
Proof.
  unfold PhotoGallery.fileName, PhotoGallery.fileExt. split; [|split].
  - destruct (pop_Some _ (split_char_nonempty "." name)) as [ext Hext].
    exists ext. split; [exact Hext|].
    pose proof (split_char_fields "." name) as Hall.
    rewrite Forall_forall in Hall. apply Hall. now apply pop_In.
  - intros H. now rewrite (split_char_without _ _ H).
  - intros stem ext -> Hext.
    change (stem ++ "." ++ ext) with (stem ++ String "." ext).
    rewrite split_char_app, (split_char_without _ _ Hext).
    rewrite pop_app by discriminate. split; reflexivity.
Qed.

Lemma file_extension_witness :
  PhotoGallery.fileExt "notes" = Some "notes" /\
  PhotoGallery.fileExt "campus.tour.JPG" = Some "JPG".
Proof.
  split.
  - apply (proj1 (proj2 (file_extension "notes"))). reflexivity.
  - apply (proj2 (proj2 (file_extension "campus.tour.JPG")) "campus.tour" "JPG");
      reflexivity.
Defined.

(** X19. The date a new visit starts with is the part of the ISO timestamp
    before its first [T]: for a timestamp made of a date without [T], a [T]
    and a time it is the date, and it is never undefined. *)
Theorem default_visit_date (iso : string) :
  (exists date, NewVisitModal.defaultVisitDate iso = Some date
                /\ without "T" date = true) /\
  (forall date time,
     iso = date ++ "T" ++ time -> without "T" date = true ->
     NewVisitModal.defaultVisitDate iso = Some date).
Proof.
  unfold NewVisitModal.defaultVisitDate. split.
  - pose proof (split_char_nonempty "T" iso) as Hne.
    pose proof (split_char_fields "T" iso) as Hall.
    destruct (split iso "T") as [|d ds]; [contradiction|].
    exists d. split; [reflexivity|]. now inversion Hall.
  - intros date time -> Hdate.
    change (date ++ "T" ++ time) with (date ++ String "T" time).
    now rewrite split_char_app, (split_char_without _ _ Hdate).
Qed.

Lemma default_visit_date_witness :
  NewVisitModal.defaultVisitDate "2025-03-01T09:30:00.000Z" = Some "2025-03-01".
Proof.
  apply (proj2 (default_visit_date "2025-03-01T09:30:00.000Z")
           "2025-03-01" "09:30:00.000Z"); reflexivity.
Defined.

(** ** PhotoGallery: storing an upload *)

Section Upload.
Variable visitId caption : string.
Variable now : nat.
Variable name : string.
Variable answers : PhotoGallery.Answers.

Let path := PhotoGallery.fileName visitId now name.
Let url := PhotoGallery.publicUrl answers path.
Let trace := PhotoGallery.handleUpload visitId caption now (Some name) answers.

(** The first upload went through, or failed with a message that holds
    [not found]. *)
Let proceeds : bool :=
  match PhotoGallery.uploadError answers with
  | None => true
  | Some message => includes message "not found"
  end.

(** X20. [handleUpload] does nothing without a selected file.  With one it
    sets the uploading flag first and clears it last, and it inserts a photo
    row (with the visit, the public URL of the upload path and the caption)
    exactly when the first upload succeeded or failed with a message holding
    [not found].  In the second case the row is inserted whether or not the
    bucket could be created: when creating the bucket fails, the file is
    never uploaded again and its row is inserted all the same.  The parent
    gets a photo, and the caption dialog closes, exactly when that insert
    came back with a row and no error. *)
Theorem upload_outcomes :
  PhotoGallery.handleUpload visitId caption now None answers = [] /\
  hd_error trace = Some (PhotoGallery.SetUploading true) /\
  List.last trace (PhotoGallery.SetUploading true) = PhotoGallery.SetUploading false /\
  (forall v u c,
     In (PhotoGallery.InsertPhoto v u c) trace <->
     proceeds = true /\ v = visitId /\ u = url /\ c = caption) /\
  (forall photo,
     In (PhotoGallery.OnPhotoAdded photo) trace <->
     proceeds = true /\
     res_error (PhotoGallery.insertPhoto answers visitId url caption) = None /\
     res_data (PhotoGallery.insertPhoto answers visitId url caption) = Some photo) /\
  (In PhotoGallery.CloseCaptionModal trace <->
   exists photo, In (PhotoGallery.OnPhotoAdded photo) trace) /\
  (forall message failure,
     PhotoGallery.uploadError answers = Some message ->
     includes message "not found" = true ->
     PhotoGallery.bucketError answers = Some failure ->
     In (PhotoGallery.InsertPhoto visitId url caption) trace /\
     List.length (filter (fun e => match e with
                                   | PhotoGallery.Upload _ => true
                                   | _ => false
                                   end) trace) = 1).
Proof.
  unfold trace, proceeds, PhotoGallery.handleUpload. fold path. fold url.
  split; [reflexivity|]. split; [reflexivity|].
  destruct (PhotoGallery.insertPhoto answers visitId url caption) as [d e] eqn:Hins.
  cbn [res_error res_data].
  destruct (PhotoGallery.uploadError answers) as [message|];
    [destruct (includes message "not found") eqn:Hinc;
       [destruct (PhotoGallery.bucketError answers) as [b|]|]|];
    destruct e as [e|]; try destruct d as [d|];
    cbn [PhotoGallery.failure List.app List.last filter List.length];
    (split; [reflexivity|]).
  all: split;
    [ intros v u c; split;
      [ intros H; trace_cases H; try (injection H as <- <- <-; now repeat split)
      | intros [Hp [-> [-> ->]]]; try discriminate Hp; cbn [In]; tauto ] |].
  all: split;
    [ intros photo; split;
      [ intros H; trace_cases H; try (injection H as <-; now repeat split)
      | intros [Hp [He Hd]]; try discriminate Hp; try discriminate He;
        try discriminate Hd; injection Hd as <-; cbn [In]; tauto ] |].
  all: split;
    [ split;
      [ intros H; trace_cases H; try (eexists; cbn [In]; tauto)
      | intros [photo H]; trace_cases H; cbn [In]; tauto ] |].
  all: intros m f Hm Hi Hb;
    first [ discriminate Hm | discriminate Hb
          | injection Hm as <-; rewrite Hinc in Hi; discriminate Hi
          | split; [cbn [In]; tauto | reflexivity] ].
Qed.

End Upload.

Lemma upload_outcomes_witness :
  let answers :=
    PhotoGallery.mkAnswers (Some "Bucket not found") (Some "not allowed")
      (fun path => "https://cdn.example.org/" ++ path)
      (fun _ _ _ => mkResponse None None) in
  includes "Bucket not found" "not found" = true /\
  In (PhotoGallery.InsertPhoto "v" "https://cdn.example.org/v/42.jpg" "Library")
     (PhotoGallery.handleUpload "v" "Library" 42 (Some "library.jpg") answers).
Proof.
  cbv zeta. split; [reflexivity|].
  destruct (upload_outcomes "v" "Library" 42 "library.jpg"
              (PhotoGallery.mkAnswers (Some "Bucket not found") (Some "not allowed")
                 (fun path => "https://cdn.example.org/" ++ path)
                 (fun _ _ _ => mkResponse None None)))
    as [_ [_ [_ [_ [_ [_ H]]]]]].
  exact (proj1 (H "Bucket not found" "not allowed" eq_refl eq_refl eq_refl)).
Defined.

(** ** The lists held by VisitDetail and Dashboard, and the note badge *)

Lemma filter_all {A : Type} (f : A -> bool) (l : list A) :
  (forall x, In x l -> f x = true) -> filter f l = l.
Proof.
  induction l as [|x l IH]; intros H; [reflexivity|].
  cbn [filter]. rewrite (H x) by now left. f_equal. apply IH.
  intros y Hy. apply H. now right.
Qed.

(** X21. Deleting undoes adding: when no element of the list carries the
    identifier of the new one, adding it and then deleting by that identifier
    gives the list back, for the notes and photos of a visit and for the
    visits of the dashboard.  A deletion removes every element with the
    identifier, keeps the others in order, and changes nothing when no
    element carries it. *)
Theorem delete_undoes_add :
  (forall note notes,
     (forall n, In n notes -> note_id n <> note_id note) ->
     VisitDetail.handleNoteDeleted (note_id note)
       (VisitDetail.handleNoteAdded note notes) = notes) /\
  (forall photo photos,
     (forall p, In p photos -> photo_id p <> photo_id photo) ->
     VisitDetail.handlePhotoDeleted (photo_id photo)
       (VisitDetail.handlePhotoAdded photo photos) = photos) /\
  (forall visit visits,
     (forall v, In v visits -> visit_id_ v <> visit_id_ visit) ->
     Dashboard.handleVisitDeleted (visit_id_ visit)
       (Dashboard.handleVisitCreated visit visits) = visits) /\
  (forall id notes n,
     In n (VisitDetail.handleNoteDeleted id notes) <-> In n notes /\ note_id n <> id) /\
  (forall id before after,
     VisitDetail.handleNoteDeleted id (before ++ after)
     = (VisitDetail.handleNoteDeleted id before
        ++ VisitDetail.handleNoteDeleted id after)%list).
Proof.
  unfold VisitDetail.handleNoteDeleted, VisitDetail.handleNoteAdded,
    VisitDetail.handlePhotoDeleted, VisitDetail.handlePhotoAdded,
    Dashboard.handleVisitDeleted, Dashboard.handleVisitCreated.
  split; [|split; [|split; [|split]]].
  - intros note notes H. cbn [filter]. rewrite String.eqb_refl. cbn [negb].
    apply filter_all. intros n Hn. apply negb_true_iff, String.eqb_neq. now apply H.
  - intros photo photos H. cbn [filter]. rewrite String.eqb_refl. cbn [negb].
    apply filter_all. intros p Hp. apply negb_true_iff, String.eqb_neq. now apply H.
  - intros visit visits H. cbn [filter]. rewrite String.eqb_refl. cbn [negb].
    apply filter_all. intros v Hv. apply negb_true_iff, String.eqb_neq. now apply H.
  - intros id notes n. rewrite filter_In, negb_true_iff, String.eqb_neq. tauto.
  - intros id before after. apply filter_app.
Qed.

Lemma delete_undoes_add_witness :
  VisitDetail.handleNoteDeleted "fresh"
    (VisitDetail.handleNoteAdded
       (mkNote "fresh" "v" "housing" "Quiet dorms" "" "") Samples.notes)
  = Samples.notes.
Proof.
  apply (proj1 delete_undoes_add (mkNote "fresh" "v" "housing" "Quiet dorms" "" "")).
  intros n Hn. cbn in Hn.
  repeat (destruct Hn as [<-|Hn]; [discriminate|]). destruct Hn.
Defined.

Lemma find_none {A : Type} (f : A -> bool) (l : list A) :
  (forall x, In x l -> f x = false) -> find f l = None.
Proof.
  induction l as [|x l IH]; intros H; [reflexivity|].
  cbn [find]. rewrite (H x) by now left. apply IH. intros y Hy. apply H. now right.
Qed.

(** X22. The badge of a note.  A category the editor offers is shown with
    its own label and its own colour.  Any other category is shown with the
    raw tag as label; its colour is the colour of general, except for a tag
    that names a member of [Object.prototype], for which the colour table
    yields that member instead of a colour while the label lookup (a search
    of the array) is not affected. *)
Theorem badge_lookup (nativeText : string -> string) :
  (forall c, In c NotesList.CATEGORIES ->
     NotesList.categoryLabel (NotesList.value c) = NotesList.label c /\
     Obj.own NotesList.colors (NotesList.value c)
     = Some (NotesList.getCategoryColor nativeText (NotesList.value c))) /\
  (forall tag, ~ In tag (map NotesList.value NotesList.CATEGORIES) ->
     NotesList.categoryLabel tag = tag /\
     NotesList.getCategoryColor nativeText tag
     = if Obj.inherited tag then nativeText tag else "bg-gray-100 text-gray-700").
Proof.
  split.
  - intros c Hin. unfold NotesList.CATEGORIES in Hin. cbn [In] in Hin.
    repeat (destruct Hin as [<-|Hin]; [split; reflexivity|]). destruct Hin.
  - intros tag Hnot.
    assert (Hne : forall k, In k (map NotesList.value NotesList.CATEGORIES) ->
                            (k =? tag) = false).
    { intros k Hk. apply String.eqb_neq. intros ->. contradiction. }
    split.
    + unfold NotesList.categoryLabel. rewrite find_none; [reflexivity|].
      intros x Hx. apply Hne. now apply in_map.
    + unfold NotesList.getCategoryColor, Obj.get, NotesList.colors.
      cbn [Obj.own]. rewrite !Hne by (cbn; tauto).
      rewrite String.eqb_refl. destruct (Obj.inherited tag); reflexivity.
Qed.

Lemma badge_lookup_witness :
  NotesList.categoryLabel "dining" = "dining" /\
  NotesList.getCategoryColor Samples.nativeText "dining" = "bg-gray-100 text-gray-700".
Proof.
  apply (proj2 (badge_lookup Samples.nativeText) "dining").
  cbn. intros H. repeat (destruct H as [H|H]; [discriminate H|]). exact H.
Defined.

(** ** The order of the category subsections in general *)

Lemma insertKey_HdRel (k a : string) (ks : list string) :
  HdRel byIndex a ks -> byIndex a k -> HdRel byIndex a (Obj.insertKey k ks).
Proof.
  intros Hks Hk. destruct ks as [|k' ks]; cbn [Obj.insertKey]; [now constructor|].
  destruct (Obj.indexOf k <=? Obj.indexOf k')%N; constructor; [exact Hk|].
  now inversion Hks.
Qed.

Lemma insertKey_Sorted (k : string) (ks : list string) :
  Sorted byIndex ks -> Sorted byIndex (Obj.insertKey k ks).
Proof.
  induction ks as [|k' ks IH]; intros Hs; cbn [Obj.insertKey].
  - repeat constructor.
  - destruct (N.leb_spec (Obj.indexOf k) (Obj.indexOf k')) as [Hle|Hlt].
    + constructor; [exact Hs | now constructor].
    + inversion Hs as [|? ? Hs' Hhd]; subst. constructor; [now apply IH|].
      apply insertKey_HdRel; [exact Hhd|]. unfold byIndex. lia.
Qed.

Lemma sortKeys_Sorted (ks : list string) : Sorted byIndex (Obj.sortKeys ks).
Proof.
  induction ks as [|k ks IH]; cbn [Obj.sortKeys]; [constructor|].
  now apply insertKey_Sorted.
Qed.

Lemma entries_keys {V : Type} (o : Obj.t V) : map fst (Obj.entries o) = Obj.keys o.
Proof.
  unfold Obj.entries.
  assert (H : forall ks, (forall k, In k ks -> In k (map fst o)) ->
    map fst (flat_map (fun k => match Obj.own o k with
                                | Some v => [(k, v)]
                                | None => []
                                end) ks) = ks).
  { induction ks as [|k ks IH]; intros Hks; [reflexivity|].
    cbn [flat_map]. rewrite map_app, IH by (intros; apply Hks; now right).
    destruct (Obj.own o k) eqn:E; [reflexivity|].
    apply own_None in E. exfalso. apply E, Hks. now left. }
  apply H. intros k Hk.
  apply (Permutation_in _ (Permutation_sym (keys_perm o))). exact Hk.
Qed.

(** X23. The order of the category subsections for any tags: the categories
    that are array indices come first, in ascending numeric order, and the
    other categories follow in the order of their first occurrence; each
    subsection holds the notes of its category in input order. *)
Theorem subsection_order notes (o : Obj.t (list Note)) :
  groupNotes notes = Ok o ->
  let tags := firstSeen (map category notes) in
  (exists indices,
     map fst (Obj.entries o)
     = (indices ++ filter (fun k => negb (Obj.isArrayIndex k)) tags)%list /\
     Permutation indices (filter Obj.isArrayIndex tags) /\
     Sorted byIndex indices) /\
  (forall k group, In (k, group) (Obj.entries o) -> group = notesOf k notes).
Proof.
  intros Hgroup tags. apply groupNotes_Ok in Hgroup. destruct Hgroup as [-> _].
  split.
  - exists (Obj.sortKeys (filter Obj.isArrayIndex tags)).
    split; [|split].
    + rewrite entries_keys. unfold Obj.keys. now rewrite stableGrouping_keys.
    + apply Permutation_sym, sortKeys_perm.
    + apply sortKeys_Sorted.
  - intros k group Hin. now apply entries_stableGrouping in Hin.
Qed.

Lemma subsection_order_witness :
  let notes := [Samples.note "campus" "A"; Samples.note "10" "B";
                Samples.note "9" "C"; Samples.note "campus" "D"] in
  groupNotes notes = Ok (stableGrouping notes) /\
  map fst (Obj.entries (stableGrouping notes)) = ["9"; "10"; "campus"] /\
  forall k group,
    In (k, group) (Obj.entries (stableGrouping notes)) -> group = notesOf k notes.
Proof.
  cbv zeta. split; [reflexivity|]. split; [reflexivity|].
  exact (proj2 (subsection_order
                  [Samples.note "campus" "A"; Samples.note "10" "B";
                   Samples.note "9" "C"; Samples.note "campus" "D"] _ eq_refl)).
Defined.

(** ** Headings of unmapped tags, announcements without items, new visits *)

(** X24. A category outside the title table that names no member of
    [Object.prototype] is headed by the raw tag, and a category of the table
    by its title. *)
Theorem heading_falls_back_to_tag (nativeText : string -> string) (tag : string) :
  Obj.inherited tag = false ->
  (Obj.own categoryTitles tag = None -> heading nativeText tag = tag) /\
  (forall title, Obj.own categoryTitles tag = Some title ->
     heading nativeText tag = title).
Proof.
  intros Hinh. rewrite (heading_own nativeText tag Hinh).
  split; [now intros -> | now intros title ->].
Qed.

Lemma heading_falls_back_to_tag_witness :
  heading Samples.nativeText "dining" = "dining" /\
  heading Samples.nativeText "housing" = "Housing & Accommodation".
Proof.
  split.
  - apply (proj1 (heading_falls_back_to_tag Samples.nativeText "dining" eq_refl)).
    reflexivity.
  - apply (proj2 (heading_falls_back_to_tag Samples.nativeText "housing" eq_refl)).
    reflexivity.
Defined.

(** X25. Announcements that nothing follows.  When there are notes but none
    in a category with a key-point sentence (only general or unmapped tags),
    the Key Takeaways section announces the main points and lists none; when
    there are photos but none with a caption, the Visual Documentation
    sentence ends in "including:" and no bullet follows. *)
Theorem announcements_without_items :
  (forall notes (o : Obj.t (list Note)) report,
     notes <> [] ->
     groupNotes notes = Ok o ->
     (forall note, In note notes ->
        ~ In (category note) (map fst keyPointTable)) ->
     keyTakeaways notes o report =
     report ++ "## Key Takeaways" ++ nl ++ nl
       ++ "Based on my observations and notes, here are the main points to consider:"
       ++ nl ++ nl ++ nl) /\
  (forall photos report,
     photos <> [] ->
     (forall photo, In photo photos -> caption photo = "") ->
     visualDocumentation photos report =
     report ++ "## Visual Documentation" ++ nl ++ nl
       ++ "I captured " ++ decimal (List.length photos) ++ " photo"
       ++ plural (List.length photos)
       ++ " during my visit, documenting various aspects of the campus including:"
       ++ nl ++ nl ++ nl).
Proof.
  split.
  - intros notes o report Hne Hgroup Hnone.
    apply groupNotes_Ok in Hgroup. destruct Hgroup as [-> _].
    assert (Hpoints : expectedKeyPoints notes = []).
    { unfold expectedKeyPoints.
      assert (Hfilter : filter (fun row => existsb (fun note => category note =? fst row)
                                                   notes) keyPointTable = []).
      { apply filter_none. apply Forall_forall. intros row Hrow.
        apply not_true_is_false. intros Hex.
        apply existsb_exists in Hex. destruct Hex as [n [Hn Hc]].
        apply String.eqb_eq in Hc. apply (Hnone n Hn). rewrite Hc.
        now apply in_map. }
      now rewrite Hfilter. }
    rewrite keyTakeaways_text, keyPoints_expected, Hpoints.
    unfold takeawayLines. destruct notes as [|n ns]; [contradiction|].
    text_normalize. reflexivity.
  - intros photos report Hne Hnone.
    assert (Hcap : captioned photos = []).
    { unfold captioned. apply filter_none. apply Forall_forall. intros p Hp.
      now rewrite (Hnone p Hp). }
    rewrite visualDocumentation_text. unfold photoLines, photoSummaryLine, countPhrase.
    rewrite Hcap. destruct photos as [|p ps]; [contradiction|].
    text_normalize. reflexivity.
Qed.

Lemma announcements_without_items_witness :
  visualDocumentation [Samples.photo ""; Samples.photo ""] ""
  = "## Visual Documentation" ++ nl ++ nl
    ++ "I captured 2 photos during my visit, documenting various aspects of the campus including:"
    ++ nl ++ nl ++ nl.
Proof.
  apply (proj2 announcements_without_items [Samples.photo ""; Samples.photo ""] "").
  - discriminate.
  - intros p Hp. cbn in Hp. repeat (destruct Hp as [<-|Hp]; [reflexivity|]).
    destruct Hp.
Defined.

(** X26. [handleSubmit] never asks the store to insert a visit when nobody
    is signed in: it then shows "Not authenticated".  When somebody is, it
    inserts exactly one row, owned by that user, with the form's college name,
    date and location and the status draft, and hands the parent a visit
    exactly when the store answered with a row and no error.  It always
    clears the previous error first and the loading flag last. *)
Theorem new_visit_outcomes (collegeName visitDate location : string)
  (user : option string)
  (insert : NewVisitModal.NewVisit -> option Visit * option NewVisitModal.StoreError) :
  let trace := NewVisitModal.handleSubmit collegeName visitDate location user insert in
  hd_error trace = Some (NewVisitModal.SetError "") /\
  List.last trace (NewVisitModal.SetError "") = NewVisitModal.SetLoading false /\
  (user = None ->
   trace = [NewVisitModal.SetError ""; NewVisitModal.SetLoading true;
            NewVisitModal.GetUser; NewVisitModal.SetError "Not authenticated";
            NewVisitModal.SetLoading false]) /\
  (forall row,
     In (NewVisitModal.InsertVisit row) trace <->
     exists id,
       user = Some id /\
       row = NewVisitModal.mkNewVisit id collegeName visitDate location draft) /\
  (forall visit,
     In (NewVisitModal.OnVisitCreated visit) trace <->
     exists id,
       user = Some id /\
       insert (NewVisitModal.mkNewVisit id collegeName visitDate location draft)
       = (Some visit, None)).
Proof.
  unfold NewVisitModal.handleSubmit. cbv zeta.
  destruct user as [id|].
  - destruct (insert (NewVisitModal.mkNewVisit id collegeName visitDate location draft))
      as [[d|] [e|]] eqn:Hins;
      cbn [List.app hd_error List.last];
      (split; [reflexivity|]); (split; [reflexivity|]); (split; [discriminate|]);
      split.
    all: try (intros row; split;
              [ intros H; trace_cases H; injection H as <-; now exists id
              | intros [i [[= <-] ->]]; cbn [In]; tauto ]).
    all: intros visit; split;
      [ intros H; trace_cases H; try (injection H as <-; now exists id)
      | intros [i [[= <-] Hi]]; rewrite Hins in Hi; try discriminate Hi;
        injection Hi as <-; cbn [In]; tauto ].
  - cbn [List.app hd_error List.last].
    split; [reflexivity|]. split; [reflexivity|]. split; [reflexivity|]. split.
    + intros row. split; [intros H; trace_cases H | intros [i [H _]]; discriminate H].
    + intros visit. split; [intros H; trace_cases H | intros [i [H _]]; discriminate H].
Qed.

Lemma new_visit_outcomes_witness :
  NewVisitModal.handleSubmit "Example College" "2025-03-01" "" None
    (fun _ => (None, None))
  = [NewVisitModal.SetError ""; NewVisitModal.SetLoading true;
     NewVisitModal.GetUser; NewVisitModal.SetError "Not authenticated";
     NewVisitModal.SetLoading false].
Proof.
  exact (proj1 (proj2 (proj2 (new_visit_outcomes "Example College" "2025-03-01" ""
                                None (fun _ => (None, None))))) eq_refl).
Defined.
